(** * Mouth-breathing detector: geometry, debounce and sound alert

    A shallow embedding of [src/utils/geometry.js] and of the per-frame
    callback [onResults] of the [BreathingDetector] component, with the
    properties of the frame pipeline proved about them.

    Numbers.  JavaScript numbers are IEEE doubles.  [Geometry] idealises
    the landmark coordinates and the threshold as real numbers ([R]); it
    carries the statements that do not turn on rounding.  [Geometry64] is
    the same code on binary64 floats, with the rounding, the underflow and
    the NaN of the doubles; it carries the statement about the comparison
    of the ratio with the threshold.
    [Date.now()] yields an integral number of milliseconds and is a [Z];
    [delaySeconds] is a rational number of seconds ([Q]), and the quotient
    [(now - last) / 1000] and its comparison are exact.  For the values the
    delay slider produces (multiples of 0.5) and for the constant 60 the
    double comparison gives the same answer.

    State.  [isMouthOpenState] is React state: the callback reads the
    value captured at the render it belongs to, and [setIsMouthOpenState]
    only takes effect at the next render.  The callback returns the
    setter calls and the chime as a list of effects; [frame] applies
    [setIsMouthOpenState] and reports the chime, and [renderLoading]
    follows [isLoading], which only drives the loading overlay.
    Each frame is taken to be handled by the callback of the latest
    render. *)

From Stdlib Require Import Floats Reals Lra ZArith QArith Bool List Lia.
Import ListNotations.

(** ** geometry.js *)

Module Geometry.

Local Open Scope R_scope.

(** A landmark [{x, y, z}]. *)
Record Point3D : Type := mkPoint { x : R; y : R; z : R }.

(** The landmark array of one face.  An entry is [None] where the array
    holds [undefined] or [null]; an index past the end reads [undefined]
    as well. *)
Definition LandmarkList : Type := list (option Point3D).

(** [landmarks[i]], with [None] for every falsy value. *)
Definition landmarkAt (landmarks : LandmarkList) (i : nat) : option Point3D :=
  match nth_error landmarks i with
  | Some (Some p) => Some p
  | _ => None
  end.

(** [calculateDistance(p1, p2)]; [Math.pow(a, 2)] is [a ^ 2]. *)
Definition calculateDistance (p1 p2 : Point3D) : R :=
  sqrt ((x p1 - x p2) ^ 2 + (y p1 - y p2) ^ 2 + (z p1 - z p2) ^ 2).

(** [a === 0] and [a > b] on numbers, as booleans. *)
Definition isZero (a : R) : bool := if Req_dec_T a 0 then true else false.
Definition gtb (a b : R) : bool := if Rlt_dec b a then true else false.

(** MediaPipe Face Mesh indices read by [isMouthOpen]. *)
Definition UPPER_LIP_BOTTOM : nat := 13.
Definition LOWER_LIP_TOP : nat := 14.
Definition FOREHEAD : nat := 10.
Definition CHIN : nat := 152.

(** [isMouthOpen(landmarks, threshold)].  The argument is [None] when the
    caller passes [null] or [undefined]. *)
Definition isMouthOpen (landmarks : option LandmarkList) (threshold : R) : bool :=
  match landmarks with
  | None => false
  | Some lm =>
      match landmarkAt lm UPPER_LIP_BOTTOM, landmarkAt lm LOWER_LIP_TOP,
            landmarkAt lm FOREHEAD, landmarkAt lm CHIN with
      | Some upperLipBottom, Some lowerLipTop, Some forehead, Some chin =>
          let mouthDistance := calculateDistance upperLipBottom lowerLipTop in
          let faceHeight := calculateDistance forehead chin in
          if isZero faceHeight then false
          else
            let ratio := mouthDistance / faceHeight in
            gtb ratio threshold
      | _, _, _, _ => false
      end
  end.

(** The call with the parameter left out: [threshold = 0.05]. *)
Definition isMouthOpen_default (landmarks : option LandmarkList) : bool :=
  isMouthOpen landmarks (5 / 100).

(** The divisions a call of [isMouthOpen] evaluates, as pairs (dividend,
    divisor): the same control flow as [isMouthOpen], recording line 40
    instead of the result. *)
Definition isMouthOpen_divisions (landmarks : option LandmarkList)
  : list (R * R) :=
  match landmarks with
  | None => []
  | Some lm =>
      match landmarkAt lm UPPER_LIP_BOTTOM, landmarkAt lm LOWER_LIP_TOP,
            landmarkAt lm FOREHEAD, landmarkAt lm CHIN with
      | Some upperLipBottom, Some lowerLipTop, Some forehead, Some chin =>
          let mouthDistance := calculateDistance upperLipBottom lowerLipTop in
          let faceHeight := calculateDistance forehead chin in
          if isZero faceHeight then []
          else [(mouthDistance, faceHeight)]
      | _, _, _, _ => []
      end
  end.

(** [setAt lm i v] writes [v] at index [i], extending with holes. *)
Fixpoint setAt (lm : LandmarkList) (i : nat) (v : option Point3D)
  : LandmarkList :=
  match i, lm with
  | O, [] => [v]
  | O, _ :: rest => v :: rest
  | S i', [] => None :: setAt [] i' v
  | S i', e :: rest => e :: setAt rest i' v
  end.

(** A frame with exactly the four landmarks given. *)
Definition frameOf (upperLipBottom lowerLipTop forehead chin : option Point3D)
  : LandmarkList :=
  setAt (setAt (setAt (setAt [] CHIN chin) FOREHEAD forehead)
           LOWER_LIP_TOP lowerLipTop) UPPER_LIP_BOTTOM upperLipBottom.

(** A face seen head-on: lips [gap] apart, forehead and chin [1] apart. *)
Definition faceWithGap (gap : R) : LandmarkList :=
  frameOf (Some (mkPoint 0 0 0)) (Some (mkPoint 0 gap 0))
    (Some (mkPoint 0 0 0)) (Some (mkPoint 0 1 0)).

(** The same face with forehead and chin at one point. *)
Definition flatFace (gap : R) : LandmarkList :=
  frameOf (Some (mkPoint 0 0 0)) (Some (mkPoint 0 gap 0))
    (Some (mkPoint 0 1 0)) (Some (mkPoint 0 1 0)).

End Geometry.

(** ** The frame callback of BreathingDetector *)

Module Detector.

Import Geometry.

(** The component state set from the sliders and the toggle:
    [threshold], [delaySeconds], [soundEnabled]. *)
Record Config : Type := mkConfig {
  threshold : R;
  delaySeconds : Q;
  soundEnabled : bool
}.

(** The three [useRef] cells; they are mutated in place by the callback. *)
Record Refs : Type := mkRefs {
  lastStateChangeTime : Z;
  pendingState : bool;
  lastSoundTime : Z
}.

(** What the callback asks of its environment: the two state setters and
    the chime. A setter does not change the value the running callback
    reads; it takes effect at the next render. *)
Inductive Effect : Type :=
| SetIsMouthOpenState (value : bool)
| PlayAlertSound
| SetIsLoading (value : bool).

(** The argument of [onResults]: [multiFaceLandmarks] may be missing, and
    holds one landmark array per detected face. *)
Record Results : Type := mkResults {
  multiFaceLandmarks : option (list (option LandmarkList))
}.

(** [(now - last) / 1000], in seconds. *)
Definition secondsBetween (now last : Z) : Q := (now - last) # 1000.

(** [a >= b] on numbers. *)
Definition geb (a b : Q) : bool := Qle_bool b a.

(** The fixed cooldown of the sound alert, in seconds. *)
Definition COOLDOWN_SECONDS : Q := 60.

(** Lines 59-72: the state change logic with delay.  [isMouthOpenState] is
    the value captured by the callback. *)
Definition stateChange (delaySeconds : Q) (isMouthOpenState : bool)
    (refs : Refs) (currentState : bool) (now : Z) : Refs * list Effect :=
  if negb (eqb currentState isMouthOpenState) then
    if eqb currentState (pendingState refs) then
      let timeInPendingState :=
        secondsBetween now (lastStateChangeTime refs) in
      if geb timeInPendingState delaySeconds
      then (refs, [SetIsMouthOpenState currentState])
      else (refs, [])
    else
      (mkRefs now currentState (lastSoundTime refs), [])
  else
    (mkRefs now currentState (lastSoundTime refs), []).

(** Lines 76-85: the sound alert logic; it reads the same captured
    [isMouthOpenState]. *)
Definition soundAlert (soundEnabled : bool) (isMouthOpenState : bool)
    (refs : Refs) (now : Z) : Refs * list Effect :=
  if isMouthOpenState && soundEnabled then
    let timeSinceLastSound := secondsBetween now (lastSoundTime refs) in
    if geb timeSinceLastSound COOLDOWN_SECONDS
    then (mkRefs (lastStateChangeTime refs) (pendingState refs) now,
          [PlayAlertSound])
    else (refs, [])
  else (refs, []).

(** Lines 56-85: the body run when a face was found, after the
    classification; [now] is the value of [Date.now()]. *)
Definition onFace (delaySeconds : Q) (soundEnabled : bool)
    (isMouthOpenState : bool) (refs : Refs) (currentState : bool) (now : Z)
  : Refs * list Effect :=
  let '(refs1, effects1) :=
    stateChange delaySeconds isMouthOpenState refs currentState now in
  let '(refs2, effects2) := soundAlert soundEnabled isMouthOpenState refs1 now in
  (refs2, effects1 ++ effects2).

(** [onResults(results)], closed over [threshold], [delaySeconds],
    [isMouthOpenState] and [soundEnabled]. *)
Definition onResults (cfg : Config) (isMouthOpenState : bool) (refs : Refs)
    (results : Results) (now : Z) : Refs * list Effect :=
  let '(refs', effects) :=
    match multiFaceLandmarks results with
    | Some (landmarks :: _) =>
        let currentState := isMouthOpen landmarks (threshold cfg) in
        onFace (delaySeconds cfg) (soundEnabled cfg) isMouthOpenState refs
          currentState now
    | _ => (refs, [])
    end in
  (refs', effects ++ [SetIsLoading false]).

(** The pipeline state between two frames: the rendered
    [isMouthOpenState] and the refs. *)
Record State : Type := mkState {
  isMouthOpenState : bool;
  refs : Refs
}.

(** The state at mount: [useState(false)], [useRef(Date.now())],
    [useRef(false)], [useRef(0)]. *)
Definition initialState (mountTime : Z) : State :=
  mkState false (mkRefs mountTime false 0).

(** The value of [isMouthOpenState] at the render that follows the
    effects. *)
Definition render (isMouthOpenState : bool) (effects : list Effect) : bool :=
  fold_left (fun current e =>
               match e with
               | SetIsMouthOpenState value => value
               | _ => current
               end) effects isMouthOpenState.

(** Whether the chime was played. *)
Definition played (effects : list Effect) : bool :=
  existsb (fun e => match e with PlayAlertSound => true | _ => false end)
    effects.

(** One frame: the callback of the current render runs, then the
    component re-renders, so that the next callback captures the new
    state. The boolean tells whether the alert fired. *)
Definition frame (cfg : Config) (st : State) (results : Results) (now : Z)
  : State * bool :=
  let '(refs', effects) :=
    onResults cfg (isMouthOpenState st) (refs st) results now in
  (mkState (render (isMouthOpenState st) effects) refs', played effects).

(** The same for a frame with a face whose classification is [raw]. *)
Definition step (cfg : Config) (st : State) (raw : bool) (now : Z)
  : State * bool :=
  let '(refs', effects) :=
    onFace (delaySeconds cfg) (soundEnabled cfg) (isMouthOpenState st)
      (refs st) raw now in
  (mkState (render (isMouthOpenState st) effects) refs', played effects).

(** A sequence of classified frames [(raw, now)]; the state after it and
    the fire signal of each frame. *)
Fixpoint run (cfg : Config) (st : State) (frames : list (bool * Z))
  : State * list bool :=
  match frames with
  | [] => (st, [])
  | (raw, now) :: rest =>
      let '(st1, fired) := step cfg st raw now in
      let '(st2, fires) := run cfg st1 rest in
      (st2, fired :: fires)
  end.

Definition stateAfter (cfg : Config) (st : State) (frames : list (bool * Z))
  : State := fst (run cfg st frames).

Definition firesOf (cfg : Config) (st : State) (frames : list (bool * Z))
  : list bool := snd (run cfg st frames).

(** The number of alerts in a list of fire signals. *)
Definition countFires (fires : list bool) : nat :=
  length (filter (fun b => b) fires).

(** Accessors named as in the specification. *)
Definition committedState (st : State) : bool := isMouthOpenState st.
Definition pendingSince (st : State) : Z := lastStateChangeTime (refs st).
Definition pending (st : State) : bool := pendingState (refs st).
Definition lastFiredAt (st : State) : Z := lastSoundTime (refs st).

(** A raw signal that holds the value [raw] at the timestamps [times]. *)
Definition steady (raw : bool) (times : list Z) : list (bool * Z) :=
  map (fun now => (raw, now)) times.

(** [glitchesOnly d c since frames]: in [frames], every run of consecutive
    frames that disagree with [c] stays shorter than [d] seconds, measured
    from the first frame of the run; [since] is the timestamp of the first
    frame of the run under way, if any. *)
Fixpoint glitchesOnly (d : Q) (c : bool) (since : option Z)
    (frames : list (bool * Z)) : bool :=
  match frames with
  | [] => true
  | (raw, now) :: rest =>
      if eqb raw c then glitchesOnly d c None rest
      else
        match since with
        | None => glitchesOnly d c (Some now) rest
        | Some start =>
            negb (geb (secondsBetween now start) d)
            && glitchesOnly d c (Some start) rest
        end
  end.

(** A sequence of calls [onResults(results)], each with the value of
    [Date.now()] it reads; the state after it and the fire signal of each
    call. *)
Fixpoint play (cfg : Config) (st : State) (inputs : list (Results * Z))
  : State * list bool :=
  match inputs with
  | [] => (st, [])
  | (results, now) :: rest =>
      let '(st1, fired) := frame cfg st results now in
      let '(st2, fires) := play cfg st1 rest in
      (st2, fired :: fires)
  end.

(** The calls that carry a face, each with the classification of its first
    face. *)
Definition classified (cfg : Config) (inputs : list (Results * Z))
  : list (bool * Z) :=
  flat_map (fun input : Results * Z =>
              match multiFaceLandmarks (fst input) with
              | Some (landmarks :: _) =>
                  [(isMouthOpen landmarks (threshold cfg), snd input)]
              | _ => []
              end) inputs.

(** The timestamps of the frames at which the chime is played. *)
Fixpoint fireTimes (cfg : Config) (st : State) (frames : list (bool * Z))
  : list Z :=
  match frames with
  | [] => []
  | (raw, now) :: rest =>
      let '(st1, fired) := step cfg st raw now in
      if fired then now :: fireTimes cfg st1 rest
      else fireTimes cfg st1 rest
  end.

(** The timestamps of the frames that change [isMouthOpenState]. *)
Fixpoint commitTimes (cfg : Config) (st : State) (frames : list (bool * Z))
  : list Z :=
  match frames with
  | [] => []
  | (raw, now) :: rest =>
      let st1 := fst (step cfg st raw now) in
      if eqb (isMouthOpenState st1) (isMouthOpenState st)
      then commitTimes cfg st1 rest
      else now :: commitTimes cfg st1 rest
  end.

(** [P] holds of every two neighbours of a list. *)
Fixpoint consecutive (P : Z -> Z -> Prop) (times : list Z) : Prop :=
  match times with
  | [] => True
  | a :: rest =>
      match rest with
      | [] => True
      | b :: _ => P a b /\ consecutive P rest
      end
  end.

(** The timestamps of the frames never decrease. *)
Fixpoint ascending (from : Z) (frames : list (bool * Z)) : Prop :=
  match frames with
  | [] => True
  | (_, now) :: rest => (from <= now)%Z /\ ascending now rest
  end.

(** The value of [isLoading] at the render that follows the effects. *)
Definition renderLoading (isLoading : bool) (effects : list Effect) : bool :=
  fold_left (fun current e =>
               match e with
               | SetIsLoading value => value
               | _ => current
               end) effects isLoading.

End Detector.

(** ** geometry.js on binary64 floats *)

Module Geometry64.

Local Open Scope float_scope.

(** A landmark [{x, y, z}] of doubles. *)
Record Point3D : Type := mkPoint { x : float; y : float; z : float }.

(** The landmark array of one face, with [None] for [undefined], [null]
    and the indices past the end. *)
Definition LandmarkList : Type := list (option Point3D).

(** [landmarks[i]], with [None] for every falsy value. *)
Definition landmarkAt (landmarks : LandmarkList) (i : nat) : option Point3D :=
  match nth_error landmarks i with
  | Some (Some p) => Some p
  | _ => None
  end.

(** [Math.pow(a, 2)]: the square, rounded once. *)
Definition pow2 (a : float) : float := a * a.

(** [calculateDistance(p1, p2)]: every operation rounds to the nearest
    double; the sum is taken from left to right. *)
Definition calculateDistance (p1 p2 : Point3D) : float :=
  PrimFloat.sqrt
    (pow2 (x p1 - x p2) + pow2 (y p1 - y p2) + pow2 (z p1 - z p2)).

(** [isMouthOpen(landmarks, threshold)].  [=?] is [===] on numbers (false
    on NaN, true on the two zeros) and [threshold <? ratio] is
    [ratio > threshold] (false on NaN). *)
Definition isMouthOpen (landmarks : option LandmarkList) (threshold : float)
  : bool :=
  match landmarks with
  | None => false
  | Some lm =>
      match landmarkAt lm 13, landmarkAt lm 14,
            landmarkAt lm 10, landmarkAt lm 152 with
      | Some upperLipBottom, Some lowerLipTop, Some forehead, Some chin =>
          let mouthDistance := calculateDistance upperLipBottom lowerLipTop in
          let faceHeight := calculateDistance forehead chin in
          if faceHeight =? 0 then false
          else
            let ratio := mouthDistance / faceHeight in
            threshold <? ratio
      | _, _, _, _ => false
      end
  end.

(** [setAt lm i v] writes [v] at index [i], extending with holes. *)
Fixpoint setAt (lm : LandmarkList) (i : nat) (v : option Point3D)
  : LandmarkList :=
  match i, lm with
  | O, [] => [v]
  | O, _ :: rest => v :: rest
  | S i', [] => None :: setAt [] i' v
  | S i', e :: rest => e :: setAt rest i' v
  end.

(** A frame with exactly the four landmarks given. *)
Definition frameOf (upperLipBottom lowerLipTop forehead chin : Point3D)
  : LandmarkList :=
  setAt (setAt (setAt (setAt [] 152 (Some chin)) 10 (Some forehead))
           14 (Some lowerLipTop)) 13 (Some upperLipBottom).

(** Whether one of the coordinates of a landmark is NaN. *)
Definition hasNaN (p : Point3D) : bool :=
  is_nan (x p) || is_nan (y p) || is_nan (z p).

(** Whether two landmarks have the same coordinates, as [===] sees them. *)
Definition sameNumbers (p q : Point3D) : bool :=
  (x p =? x q) && (y p =? y q) && (z p =? z q).

End Geometry64.

(** ** Properties of geometry.js *)

Module GeometryFacts.

Import Geometry.
Local Open Scope R_scope.

Lemma isZero_true (a : R) : isZero a = true <-> a = 0.
Proof.
  unfold isZero. destruct (Req_dec_T a 0); split; intro H;
    try reflexivity; try assumption; try discriminate; contradiction.
Qed.

Lemma isZero_false (a : R) : isZero a = false <-> a <> 0.
Proof.
  unfold isZero. destruct (Req_dec_T a 0); split; intro H;
    try reflexivity; try assumption; try discriminate; contradiction.
Qed.

Lemma gtb_true (a b : R) : gtb a b = true <-> a > b.
Proof.
  unfold gtb. destruct (Rlt_dec b a); split; intro H;
    try reflexivity; try assumption; try discriminate; contradiction.
Qed.

Lemma gtb_false (a b : R) : gtb a b = false <-> a <= b.
Proof.
  unfold gtb. destruct (Rlt_dec b a); split; intro H;
    try reflexivity; try discriminate; lra.
Qed.

(** The distance of a point to itself is 0. *)
Lemma calculateDistance_same (p1 p2 : Point3D) :
  x p1 = x p2 -> y p1 = y p2 -> z p1 = z p2 -> calculateDistance p1 p2 = 0.
Proof.
  intros Hx Hy Hz. unfold calculateDistance. rewrite Hx, Hy, Hz.
  replace ((x p2 - x p2) ^ 2 + (y p2 - y p2) ^ 2 + (z p2 - z p2) ^ 2)
    with 0 by ring.
  apply sqrt_0.
Qed.

(** [isMouthOpen] on a frame whose four landmarks resolve. *)
Lemma isMouthOpen_complete (lm : LandmarkList) (threshold : R)
    (upperLipBottom lowerLipTop forehead chin : Point3D) :
  landmarkAt lm UPPER_LIP_BOTTOM = Some upperLipBottom ->
  landmarkAt lm LOWER_LIP_TOP = Some lowerLipTop ->
  landmarkAt lm FOREHEAD = Some forehead ->
  landmarkAt lm CHIN = Some chin ->
  isMouthOpen (Some lm) threshold =
    if isZero (calculateDistance forehead chin) then false
    else gtb (calculateDistance upperLipBottom lowerLipTop
              / calculateDistance forehead chin) threshold.
Proof.
  intros Hu Hl Hf Hc. unfold isMouthOpen. rewrite Hu, Hl, Hf, Hc.
  reflexivity.
Qed.

Lemma isMouthOpen_divisions_complete (lm : LandmarkList)
    (upperLipBottom lowerLipTop forehead chin : Point3D) :
  landmarkAt lm UPPER_LIP_BOTTOM = Some upperLipBottom ->
  landmarkAt lm LOWER_LIP_TOP = Some lowerLipTop ->
  landmarkAt lm FOREHEAD = Some forehead ->
  landmarkAt lm CHIN = Some chin ->
  isMouthOpen_divisions (Some lm) =
    if isZero (calculateDistance forehead chin) then []
    else [(calculateDistance upperLipBottom lowerLipTop,
           calculateDistance forehead chin)].
Proof.
  intros Hu Hl Hf Hc. unfold isMouthOpen_divisions.
  rewrite Hu, Hl, Hf, Hc. reflexivity.
Qed.

(** C7: a frame that is wholly absent, or in which any of the four
    required landmarks (13 upper lip bottom, 14 lower lip top, 10 forehead,
    152 chin) is absent, is classified [false], for every threshold. *)
Theorem isMouthOpen_missing_landmark (landmarks : option LandmarkList)
    (threshold : R) :
  match landmarks with
  | None => True
  | Some lm =>
      landmarkAt lm UPPER_LIP_BOTTOM = None \/
      landmarkAt lm LOWER_LIP_TOP = None \/
      landmarkAt lm FOREHEAD = None \/
      landmarkAt lm CHIN = None
  end ->
  isMouthOpen landmarks threshold = false.
Proof.
  destruct landmarks as [lm | ]; [ | reflexivity ].
  intros H. unfold isMouthOpen.
  destruct (landmarkAt lm UPPER_LIP_BOTTOM) as [u | ];
    destruct (landmarkAt lm LOWER_LIP_TOP) as [l | ];
    destruct (landmarkAt lm FOREHEAD) as [f | ];
    destruct (landmarkAt lm CHIN) as [c | ]; try reflexivity.
  destruct H as [H | [H | [H | H]]]; discriminate H.
Qed.

(** A frame with the chin missing, and the absent frame. *)
Lemma isMouthOpen_missing_landmark_witness :
  isMouthOpen
    (Some (frameOf (Some (mkPoint 0 0 0)) (Some (mkPoint 0 1 0))
             (Some (mkPoint 0 0 0)) None)) (5 / 100) = false
  /\ isMouthOpen None (5 / 100) = false.
Proof.
  split.
  - apply isMouthOpen_missing_landmark. simpl.
    right; right; right. reflexivity.
  - apply (isMouthOpen_missing_landmark None). exact I.
Defined.

(** C8: when the forehead and the chin reference points coincide, the
    frame is classified [false] whatever the lips and the threshold are,
    and no division is evaluated; in every call, a division that is
    evaluated has a divisor other than 0. *)
Theorem isMouthOpen_zero_span :
  (forall (lm : LandmarkList) (threshold : R) (forehead chin : Point3D),
      landmarkAt lm FOREHEAD = Some forehead ->
      landmarkAt lm CHIN = Some chin ->
      x forehead = x chin -> y forehead = y chin -> z forehead = z chin ->
      isMouthOpen (Some lm) threshold = false /\
      isMouthOpen_divisions (Some lm) = []) /\
  (forall (landmarks : option LandmarkList) (dividend divisor : R),
      In (dividend, divisor) (isMouthOpen_divisions landmarks) ->
      divisor <> 0).
Proof.
  split.
  - intros lm threshold forehead chin Hf Hc Hx Hy Hz.
    pose proof (calculateDistance_same forehead chin Hx Hy Hz) as Hd.
    unfold isMouthOpen, isMouthOpen_divisions. rewrite Hf, Hc.
    destruct (landmarkAt lm UPPER_LIP_BOTTOM) as [u | ];
      destruct (landmarkAt lm LOWER_LIP_TOP) as [l | ];
      try (split; reflexivity).
    cbv zeta. rewrite Hd.
    assert (Hz0 : isZero 0 = true) by (apply isZero_true; reflexivity).
    rewrite Hz0. split; reflexivity.
  - intros landmarks dividend divisor.
    unfold isMouthOpen_divisions.
    destruct landmarks as [lm | ]; [ | intros [] ].
    destruct (landmarkAt lm UPPER_LIP_BOTTOM) as [u | ];
      destruct (landmarkAt lm LOWER_LIP_TOP) as [l | ];
      destruct (landmarkAt lm FOREHEAD) as [f | ];
      destruct (landmarkAt lm CHIN) as [c | ]; try (intros []).
    cbv zeta.
    destruct (isZero (calculateDistance f c)) eqn:E; [ intros [] | ].
    intros [H | []]. inversion H; subst.
    apply isZero_false. exact E.
Qed.

(** The result of [isMouthOpen] is decided by the recorded division. *)
Lemma isMouthOpen_by_division (landmarks : option LandmarkList)
    (threshold : R) :
  isMouthOpen landmarks threshold =
    match isMouthOpen_divisions landmarks with
    | [(mouthDistance, faceHeight)] =>
        gtb (mouthDistance / faceHeight) threshold
    | _ => false
    end.
Proof.
  unfold isMouthOpen, isMouthOpen_divisions.
  destruct landmarks as [lm | ]; [ | reflexivity ].
  destruct (landmarkAt lm UPPER_LIP_BOTTOM) as [u | ];
    destruct (landmarkAt lm LOWER_LIP_TOP) as [l | ];
    destruct (landmarkAt lm FOREHEAD) as [f | ];
    destruct (landmarkAt lm CHIN) as [c | ]; try reflexivity.
  cbv zeta. destruct (isZero (calculateDistance f c)); reflexivity.
Qed.

(** Two points on a vertical line are as far apart as their heights. *)
Lemma calculateDistance_vertical (a b b' c : R) :
  calculateDistance (mkPoint a b c) (mkPoint a b' c) = Rabs (b - b').
Proof.
  unfold calculateDistance. simpl x; simpl y; simpl z.
  replace ((a - a) ^ 2 + (b - b') ^ 2 + (c - c) ^ 2) with (Rsqr (b - b'))
    by (unfold Rsqr; ring).
  apply sqrt_Rsqr_abs.
Qed.

(** The classification of [faceWithGap gap]: its ratio is [gap]. *)
Lemma isMouthOpen_faceWithGap (gap threshold : R) :
  0 <= gap ->
  isMouthOpen (Some (faceWithGap gap)) threshold = gtb gap threshold.
Proof.
  intro Hgap.
  rewrite (isMouthOpen_complete (faceWithGap gap) threshold
             (mkPoint 0 0 0) (mkPoint 0 gap 0) (mkPoint 0 0 0) (mkPoint 0 1 0))
    by reflexivity.
  rewrite !calculateDistance_vertical.
  replace (Rabs (0 - 1)) with 1
    by (rewrite Rabs_left by lra; ring).
  replace (Rabs (0 - gap)) with gap
    by (rewrite Rabs_left1 by lra; ring).
  assert (Hz : isZero 1 = false) by (apply isZero_false; lra).
  rewrite Hz. f_equal. field.
Qed.

(** A mouth gap of 0.08 of the face span is open at threshold 0.05. *)
Lemma isMouthOpen_gap_8_threshold_5 :
  isMouthOpen (Some (faceWithGap (8 / 100))) (5 / 100) = true.
Proof.
  rewrite isMouthOpen_faceWithGap by lra. apply gtb_true. lra.
Qed.

(** A frame with coinciding forehead and chin, and the divisor of a
    frame that reaches the division. *)
Lemma isMouthOpen_zero_span_witness :
  (isMouthOpen (Some (flatFace 1)) (5 / 100) = false /\
   isMouthOpen_divisions (Some (flatFace 1)) = []) /\
  calculateDistance (mkPoint 0 0 0) (mkPoint 0 1 0) <> 0.
Proof.
  split.
  - apply (proj1 isMouthOpen_zero_span (flatFace 1) (5 / 100)
             (mkPoint 0 1 0) (mkPoint 0 1 0)); reflexivity.
  - apply (proj2 isMouthOpen_zero_span (Some (faceWithGap 1))
             (calculateDistance (mkPoint 0 0 0) (mkPoint 0 1 0))).
    rewrite (isMouthOpen_divisions_complete (faceWithGap 1)
               (mkPoint 0 0 0) (mkPoint 0 1 0) (mkPoint 0 0 0) (mkPoint 0 1 0))
      by reflexivity.
    assert (Hz : isZero (calculateDistance (mkPoint 0 0 0) (mkPoint 0 1 0))
                 = false).
    { apply isZero_false. rewrite calculateDistance_vertical.
      rewrite Rabs_left by lra. lra. }
    rewrite Hz. left. reflexivity.
Defined.

(** C10: the classification reads the frame only at the indices 13, 14,
    10 and 152: two frames that agree there are classified alike, for
    every threshold. *)
Theorem isMouthOpen_reads_four_landmarks (lm1 lm2 : LandmarkList)
    (threshold : R) :
  landmarkAt lm1 13 = landmarkAt lm2 13 ->
  landmarkAt lm1 14 = landmarkAt lm2 14 ->
  landmarkAt lm1 10 = landmarkAt lm2 10 ->
  landmarkAt lm1 152 = landmarkAt lm2 152 ->
  isMouthOpen (Some lm1) threshold = isMouthOpen (Some lm2) threshold.
Proof.
  intros H13 H14 H10 H152. unfold isMouthOpen.
  unfold UPPER_LIP_BOTTOM, LOWER_LIP_TOP, FOREHEAD, CHIN.
  rewrite H13, H14, H10, H152. reflexivity.
Qed.

(** A frame with a fifth landmark at index 1 against one without it. *)
Lemma isMouthOpen_reads_four_landmarks_witness :
  isMouthOpen (Some (setAt (faceWithGap 1) 1 (Some (mkPoint 7 7 7)))) (5 / 100)
  = isMouthOpen (Some (faceWithGap 1)) (5 / 100).
Proof.
  apply isMouthOpen_reads_four_landmarks; reflexivity.
Defined.

End GeometryFacts.

(** ** Properties of geometry.js on binary64 floats *)

Module Geometry64Facts.

Import Geometry64.
Local Open Scope float_scope.


(** [isMouthOpen] on a frame whose four landmarks resolve. *)
Lemma isMouthOpen64_complete (lm : LandmarkList) (threshold : float)
    (upperLipBottom lowerLipTop forehead chin : Point3D) :
  landmarkAt lm 13 = Some upperLipBottom ->
  landmarkAt lm 14 = Some lowerLipTop ->
  landmarkAt lm 10 = Some forehead ->
  landmarkAt lm 152 = Some chin ->
  isMouthOpen (Some lm) threshold =
    if calculateDistance forehead chin =? 0 then false
    else threshold
         <? calculateDistance upperLipBottom lowerLipTop
            / calculateDistance forehead chin.
Proof.
  intros Hu Hl Hf Hc. unfold isMouthOpen. rewrite Hu, Hl, Hf, Hc.
  reflexivity.
Qed.



(** Rounding decides at the edge.  Lips [(0, 6, 9)] apart and a face
    [(0, 32, 48)] high have the exact ratio 3/16; the doubles give
    0.18750000000000003, and the frame is open at the threshold 0.1875. *)
Example isMouthOpen_rounded_up :
  let lm :=
    frameOf (mkPoint 0 0 0) (mkPoint 0 6 9) (mkPoint 0 0 0) (mkPoint 0 32 48) in
  calculateDistance (mkPoint 0 0 0) (mkPoint 0 6 9)
  / calculateDistance (mkPoint 0 0 0) (mkPoint 0 32 48)
  = 0x1.8000000000001p-3
  /\ isMouthOpen (Some lm) 0.1875 = true.
Proof. vm_compute. split; reflexivity. Qed.

(** Underflow: a chin [2^-600] below the forehead is at the computed
    distance 0, and the frame is not open at any threshold. *)
Example isMouthOpen_underflow (threshold : float) :
  let lm :=
    frameOf (mkPoint 0 0 0) (mkPoint 0 1 0)
      (mkPoint 0 0 0) (mkPoint 0 0x1p-600 0) in
  calculateDistance (mkPoint 0 0 0) (mkPoint 0 0x1p-600 0) = 0
  /\ isMouthOpen (Some lm) threshold = false.
Proof.
  cbv zeta. split; [ vm_compute; reflexivity | ].
  rewrite (isMouthOpen64_complete _ threshold
             (mkPoint 0 0 0) (mkPoint 0 1 0)
             (mkPoint 0 0 0) (mkPoint 0 0x1p-600 0)) by reflexivity.
  replace (calculateDistance (mkPoint 0 0 0) (mkPoint 0 0x1p-600 0)) with 0
    by (vm_compute; reflexivity).
  reflexivity.
Qed.

(** *** NaN *)

Lemma is_nan_spec (a : float) : is_nan a = true <-> Prim2SF a = S754_nan.
Proof.
  unfold is_nan. rewrite FloatAxioms.eqb_spec. unfold SFeqb.
  destruct (Prim2SF a) as [s | s | | s m e]; simpl.
  - split; discriminate.
  - destruct s; split; discriminate.
  - split; reflexivity.
  - pose proof (Pos.compare_refl m) as Hm. unfold Pos.compare in Hm.
    destruct s; rewrite Z.compare_refl, Hm; split; discriminate.
Qed.

Lemma sub_nan (a b : float) :
  Prim2SF a = S754_nan \/ Prim2SF b = S754_nan ->
  Prim2SF (a - b) = S754_nan.
Proof.
  rewrite sub_spec. unfold SF64sub, SFsub.
  intros [H | H]; rewrite H; [ reflexivity | ].
  destruct (Prim2SF a); reflexivity.
Qed.

Lemma mul_nan (a b : float) :
  Prim2SF a = S754_nan \/ Prim2SF b = S754_nan ->
  Prim2SF (a * b) = S754_nan.
Proof.
  rewrite mul_spec. unfold SF64mul, SFmul.
  intros [H | H]; rewrite H; [ reflexivity | ].
  destruct (Prim2SF a); reflexivity.
Qed.

Lemma add_nan (a b : float) :
  Prim2SF a = S754_nan \/ Prim2SF b = S754_nan ->
  Prim2SF (a + b) = S754_nan.
Proof.
  rewrite add_spec. unfold SF64add, SFadd.
  intros [H | H]; rewrite H; [ reflexivity | ].
  destruct (Prim2SF a); reflexivity.
Qed.

Lemma div_nan (a b : float) :
  Prim2SF a = S754_nan \/ Prim2SF b = S754_nan ->
  Prim2SF (a / b) = S754_nan.
Proof.
  rewrite div_spec. unfold SF64div, SFdiv.
  intros [H | H]; rewrite H; [ reflexivity | ].
  destruct (Prim2SF a); reflexivity.
Qed.

Lemma sqrt_nan (a : float) :
  Prim2SF a = S754_nan -> Prim2SF (PrimFloat.sqrt a) = S754_nan.
Proof. intro H. rewrite sqrt_spec, H. reflexivity. Qed.

(** Nothing is smaller than NaN, and NaN equals nothing. *)
Lemma ltb_nan_r (a b : float) : Prim2SF b = S754_nan -> (a <? b) = false.
Proof.
  intro H. rewrite FloatAxioms.ltb_spec, H. unfold SFltb.
  destruct (Prim2SF a); reflexivity.
Qed.

Lemma eqb_nan_l (a b : float) : Prim2SF a = S754_nan -> (a =? b) = false.
Proof. intro H. rewrite FloatAxioms.eqb_spec, H. reflexivity. Qed.

(** A NaN coordinate makes the distance NaN. *)
Lemma calculateDistance_nan (p q : Point3D) :
  hasNaN p || hasNaN q = true ->
  Prim2SF (calculateDistance p q) = S754_nan.
Proof.
  intro H. unfold calculateDistance, pow2.
  assert (Hd : Prim2SF (x p - x q) = S754_nan \/
               Prim2SF (y p - y q) = S754_nan \/
               Prim2SF (z p - z q) = S754_nan).
  { unfold hasNaN in H.
    repeat (apply orb_true_iff in H; destruct H as [H | H]);
      apply is_nan_spec in H;
      first [ left; apply sub_nan; tauto
            | right; left; apply sub_nan; tauto
            | right; right; apply sub_nan; tauto ]. }
  apply sqrt_nan.
  destruct Hd as [Hd | [Hd | Hd]].
  - apply add_nan. left. apply add_nan. left. apply mul_nan. left. exact Hd.
  - apply add_nan. left. apply add_nan. right. apply mul_nan. left. exact Hd.
  - apply add_nan. right. apply mul_nan. left. exact Hd.
Qed.

(** X19: NaN fails closed.  On a frame with the four landmarks, if any
    coordinate of one of them is NaN, the result is [false], for every
    threshold. *)
Theorem isMouthOpen_nan (lm : LandmarkList) (threshold : float)
    (upperLipBottom lowerLipTop forehead chin : Point3D) :
  landmarkAt lm 13 = Some upperLipBottom ->
  landmarkAt lm 14 = Some lowerLipTop ->
  landmarkAt lm 10 = Some forehead ->
  landmarkAt lm 152 = Some chin ->
  hasNaN upperLipBottom || hasNaN lowerLipTop
  || (hasNaN forehead || hasNaN chin) = true ->
  isMouthOpen (Some lm) threshold = false.
Proof.
  intros Hu Hl Hf Hc Hnan.
  rewrite (isMouthOpen64_complete lm threshold _ _ _ _ Hu Hl Hf Hc).
  destruct (calculateDistance forehead chin =? 0); [ reflexivity | ].
  apply ltb_nan_r, div_nan.
  apply orb_true_iff in Hnan. destruct Hnan as [Hnan | Hnan].
  - left. apply calculateDistance_nan. exact Hnan.
  - right. apply calculateDistance_nan. exact Hnan.
Qed.

(** A lower lip whose y is NaN. *)
Lemma isMouthOpen_nan_witness :
  isMouthOpen
    (Some (frameOf (mkPoint 0 0 0) (mkPoint 0 nan 0)
             (mkPoint 0 0 0) (mkPoint 0 1 0))) 0.25 = false.
Proof.
  apply (isMouthOpen_nan _ 0.25
           (mkPoint 0 0 0) (mkPoint 0 nan 0) (mkPoint 0 0 0) (mkPoint 0 1 0));
    reflexivity.
Defined.

(** *** Coinciding landmarks *)

(** The difference of two doubles that compare equal is a zero, or NaN
    for two infinities. *)
Lemma sub_equal (a b : float) :
  (a =? b) = true ->
  (exists s, Prim2SF (a - b) = S754_zero s) \/ Prim2SF (a - b) = S754_nan.
Proof.
  rewrite FloatAxioms.eqb_spec, sub_spec. unfold SFeqb, SF64sub.
  destruct (Prim2SF a) as [sa | sa | | sa ma ea];
    destruct (Prim2SF b) as [sb | sb | | sb mb eb];
    try (simpl; discriminate);
    try (destruct sa, sb; simpl; try discriminate; intros _;
         first [ right; reflexivity | left; eexists; reflexivity ]).
  unfold SFcompare. intro H.
  assert (Hsame : sa = sb /\ ea = eb /\ ma = mb).
  { destruct sa, sb; try discriminate H;
      destruct (Z.compare_spec ea eb) as [He | He | He]; try discriminate H;
      destruct (PosDef.Pos.compare_cont Eq ma mb) eqn:Hm; try discriminate H;
      apply Pos.compare_eq in Hm; auto. }
  destruct Hsame as (-> & -> & ->).
  left. exists false. unfold SFsub. cbv zeta.
  rewrite Z.sub_diag. reflexivity.
Qed.

(** The square of a zero is [+0]; of NaN, NaN. *)
Lemma pow2_zero_or_nan (d : float) :
  (exists s, Prim2SF d = S754_zero s) \/ Prim2SF d = S754_nan ->
  Prim2SF (pow2 d) = S754_zero false \/ Prim2SF (pow2 d) = S754_nan.
Proof.
  unfold pow2. intros [[s H] | H].
  - left. rewrite mul_spec, H. destruct s; reflexivity.
  - right. apply mul_nan. left. exact H.
Qed.

Lemma add_zero_or_nan (a b : float) :
  Prim2SF a = S754_zero false \/ Prim2SF a = S754_nan ->
  Prim2SF b = S754_zero false \/ Prim2SF b = S754_nan ->
  Prim2SF (a + b) = S754_zero false \/ Prim2SF (a + b) = S754_nan.
Proof.
  intros [Ha | Ha] [Hb | Hb].
  - left. rewrite add_spec, Ha, Hb. reflexivity.
  - right. apply add_nan. right. exact Hb.
  - right. apply add_nan. left. exact Ha.
  - right. apply add_nan. left. exact Ha.
Qed.

(** The computed distance of two landmarks with the same coordinates is
    [+0], or NaN when a coordinate is infinite. *)
Lemma calculateDistance_sameNumbers (p q : Point3D) :
  sameNumbers p q = true ->
  Prim2SF (calculateDistance p q) = S754_zero false \/
  Prim2SF (calculateDistance p q) = S754_nan.
Proof.
  unfold sameNumbers. intro H.
  apply andb_true_iff in H. destruct H as [H Hz].
  apply andb_true_iff in H. destruct H as [Hx Hy].
  unfold calculateDistance.
  pose proof (pow2_zero_or_nan _ (sub_equal _ _ Hx)) as Px.
  pose proof (pow2_zero_or_nan _ (sub_equal _ _ Hy)) as Py.
  pose proof (pow2_zero_or_nan _ (sub_equal _ _ Hz)) as Pz.
  destruct (add_zero_or_nan _ _ (add_zero_or_nan _ _ Px Py) Pz) as [H | H].
  - left. rewrite sqrt_spec, H. reflexivity.
  - right. apply sqrt_nan. exact H.
Qed.

(** X20: in doubles too, a frame whose forehead and chin have the same
    coordinates is classified [false], whatever the lips and the
    threshold are: the computed face height is 0, or NaN when a coordinate
    is infinite, and NaN is greater than no threshold. *)
Theorem isMouthOpen_zero_span_doubles (lm : LandmarkList) (threshold : float)
    (forehead chin : Point3D) :
  landmarkAt lm 10 = Some forehead ->
  landmarkAt lm 152 = Some chin ->
  sameNumbers forehead chin = true ->
  isMouthOpen (Some lm) threshold = false.
Proof.
  intros Hf Hc Hsame. unfold isMouthOpen. rewrite Hf, Hc.
  destruct (landmarkAt lm 13) as [u | ]; [ | reflexivity ].
  destruct (landmarkAt lm 14) as [l | ]; [ | reflexivity ].
  cbv zeta.
  destruct (calculateDistance_sameNumbers forehead chin Hsame) as [H | H].
  - assert (E : (calculateDistance forehead chin =? 0) = true).
    { rewrite FloatAxioms.eqb_spec, H. reflexivity. }
    rewrite E. reflexivity.
  - rewrite (eqb_nan_l _ 0 H). apply ltb_nan_r, div_nan. right. exact H.
Qed.

(** Forehead and chin at one point, with a zero of either sign, and at
    an infinite height. *)
Lemma isMouthOpen_zero_span_doubles_witness :
  isMouthOpen
    (Some (frameOf (mkPoint 0 0 0) (mkPoint 0 1 0)
             (mkPoint 0 2 0) (mkPoint (-0) 2 0))) 0.25 = false /\
  isMouthOpen
    (Some (frameOf (mkPoint 0 0 0) (mkPoint 0 1 0)
             (mkPoint 0 infinity 0) (mkPoint 0 infinity 0))) 0.25 = false.
Proof.
  split.
  - apply (isMouthOpen_zero_span_doubles _ 0.25
             (mkPoint 0 2 0) (mkPoint (-0) 2 0)); reflexivity.
  - apply (isMouthOpen_zero_span_doubles _ 0.25
             (mkPoint 0 infinity 0) (mkPoint 0 infinity 0)); reflexivity.
Defined.

(** A zero divided by a double other than 0 is a zero or NaN. *)
Lemma div_zero_or_nan (a b : float) :
  Prim2SF a = S754_zero false \/ Prim2SF a = S754_nan ->
  (exists s, Prim2SF (a / b) = S754_zero s) \/ Prim2SF (a / b) = S754_nan.
Proof.
  intros [Ha | Ha].
  - rewrite div_spec, Ha. unfold SF64div, SFdiv.
    destruct (Prim2SF b) as [sb | sb | | sb mb eb].
    + right. reflexivity.
    + left. eexists. reflexivity.
    + right. reflexivity.
    + left. eexists. reflexivity.
  - right. apply div_nan. left. exact Ha.
Qed.

(** A threshold that is not negative is not below a zero. *)
Lemma ltb_zero_nonneg (threshold r : float) :
  (0 <=? threshold) = true ->
  (exists s, Prim2SF r = S754_zero s) \/ Prim2SF r = S754_nan ->
  (threshold <? r) = false.
Proof.
  intros Hth [[s Hr] | Hr]; [ | apply ltb_nan_r; exact Hr ].
  rewrite FloatAxioms.leb_spec in Hth. rewrite FloatAxioms.ltb_spec, Hr.
  change (Prim2SF 0) with (S754_zero false) in Hth.
  unfold SFleb in Hth. unfold SFltb.
  destruct (Prim2SF threshold) as [st | st | | st mt et]; simpl in *;
    try reflexivity; try discriminate Hth;
    destruct st; try discriminate Hth; reflexivity.
Qed.

(** X21: in doubles too, closed lips are never classified open: when the
    two lip landmarks have the same coordinates and the threshold is not
    negative, the result is [false], whatever the forehead and the chin
    are. *)
Theorem isMouthOpen_closed_lips_doubles (lm : LandmarkList)
    (threshold : float) (upperLipBottom lowerLipTop : Point3D) :
  (0 <=? threshold) = true ->
  landmarkAt lm 13 = Some upperLipBottom ->
  landmarkAt lm 14 = Some lowerLipTop ->
  sameNumbers upperLipBottom lowerLipTop = true ->
  isMouthOpen (Some lm) threshold = false.
Proof.
  intros Hth Hu Hl Hsame. unfold isMouthOpen. rewrite Hu, Hl.
  destruct (landmarkAt lm 10) as [f | ]; [ | reflexivity ].
  destruct (landmarkAt lm 152) as [c | ]; [ | reflexivity ].
  cbv zeta.
  destruct (calculateDistance f c =? 0); [ reflexivity | ].
  apply (ltb_zero_nonneg _ _ Hth).
  apply div_zero_or_nan.
  apply calculateDistance_sameNumbers. exact Hsame.
Qed.

(** Lips at one point, on a face 1 high, at the threshold 0. *)
Lemma isMouthOpen_closed_lips_doubles_witness :
  isMouthOpen
    (Some (frameOf (mkPoint 0 0.5 0) (mkPoint 0 0.5 0)
             (mkPoint 0 0 0) (mkPoint 0 1 0))) 0 = false.
Proof.
  apply (isMouthOpen_closed_lips_doubles _ 0
           (mkPoint 0 0.5 0) (mkPoint 0 0.5 0)); reflexivity.
Defined.

End Geometry64Facts.

(** ** Properties of the frame callback *)

Module DetectorFacts.

Import Geometry GeometryFacts Detector.
Local Open Scope Z_scope.

(** *** Comparisons of elapsed time *)

Lemma geb_true (a b : Q) : geb a b = true <-> (b <= a)%Q.
Proof. unfold geb. apply Qle_bool_iff. Qed.

Lemma geb_false (a b : Q) : geb a b = false <-> (a < b)%Q.
Proof.
  unfold geb. split; intro H.
  - apply Qnot_le_lt. intro Hle. apply Qle_bool_iff in Hle. congruence.
  - destruct (Qle_bool b a) eqn:E; [ | reflexivity ].
    apply Qle_bool_iff in E. exfalso. exact (Qlt_not_le _ _ H E).
Qed.

(** The cooldown test is a test on milliseconds. *)
Lemma geb_cooldown (now last : Z) :
  geb (secondsBetween now last) COOLDOWN_SECONDS = (60000 <=? now - last).
Proof.
  unfold geb, secondsBetween, COOLDOWN_SECONDS, Qle_bool. simpl.
  rewrite Z.mul_1_r. reflexivity.
Qed.

(** With no delay, the test succeeds when time has not run backwards. *)
Lemma geb_no_delay (d : Q) (now last : Z) :
  (d == 0)%Q -> geb (secondsBetween now last) d = (last <=? now).
Proof.
  intro Hd. unfold geb. rewrite Hd.
  unfold secondsBetween, Qle_bool. simpl.
  destruct (last <=? now) eqn:E.
  - apply Z.leb_le. apply Z.leb_le in E. lia.
  - apply Z.leb_gt. apply Z.leb_gt in E. lia.
Qed.

(** *** One frame *)

(** A frame with a face is a [step] on its classification. *)
Lemma frame_step (cfg : Config) (st : State)
    (landmarks : option LandmarkList) (others : list (option LandmarkList))
    (now : Z) :
  frame cfg st (mkResults (Some (landmarks :: others))) now
  = step cfg st (isMouthOpen landmarks (threshold cfg)) now.
Proof.
  unfold frame, step, onResults. simpl multiFaceLandmarks. cbv zeta.
  destruct (onFace (delaySeconds cfg) (soundEnabled cfg)
              (isMouthOpenState st) (refs st)
              (isMouthOpen landmarks (threshold cfg)) now) as [r effects].
  f_equal.
  - f_equal. unfold render. rewrite fold_left_app. reflexivity.
  - unfold played. rewrite existsb_app. simpl. apply orb_false_r.
Qed.

(** A frame without a face leaves the state alone and does not fire. *)
Lemma frame_no_face (cfg : Config) (st : State) (results : Results)
    (now : Z) :
  multiFaceLandmarks results = None \/ multiFaceLandmarks results = Some [] ->
  frame cfg st results now = (st, false).
Proof.
  intros [H | H]; unfold frame, onResults; rewrite H; destruct st;
    reflexivity.
Qed.

(** The whole of [step], field by field. *)
Lemma step_fields (cfg : Config) (st : State) (raw : bool) (now : Z) :
  let c := isMouthOpenState st in
  let r := refs st in
  let trying := negb (eqb raw c) && eqb raw (pendingState r) in
  let commit :=
    trying && geb (secondsBetween now (lastStateChangeTime r))
                (delaySeconds cfg) in
  let fire :=
    c && soundEnabled cfg
    && geb (secondsBetween now (lastSoundTime r)) COOLDOWN_SECONDS in
  step cfg st raw now =
    (mkState (if commit then raw else c)
       (mkRefs (if trying then lastStateChangeTime r else now)
          (if trying then pendingState r else raw)
          (if fire then now else lastSoundTime r)),
     fire).
Proof.
  destruct st as [c [since p fired]]. simpl.
  unfold step, onFace, stateChange, soundAlert. simpl.
  destruct raw, c, p, (soundEnabled cfg); simpl;
    repeat match goal with
      | |- context [geb ?a ?b] => destruct (geb a b); simpl
      end; reflexivity.
Qed.

Lemma step_committed (cfg : Config) (st : State) (raw : bool) (now : Z) :
  committedState (fst (step cfg st raw now)) =
    if negb (eqb raw (committedState st)) && eqb raw (pending st)
       && geb (secondsBetween now (pendingSince st)) (delaySeconds cfg)
    then raw else committedState st.
Proof. rewrite step_fields. reflexivity. Qed.

Lemma step_pending (cfg : Config) (st : State) (raw : bool) (now : Z) :
  pending (fst (step cfg st raw now)) =
    if negb (eqb raw (committedState st)) && eqb raw (pending st)
    then pending st else raw.
Proof. rewrite step_fields. reflexivity. Qed.

Lemma step_pendingSince (cfg : Config) (st : State) (raw : bool) (now : Z) :
  pendingSince (fst (step cfg st raw now)) =
    if negb (eqb raw (committedState st)) && eqb raw (pending st)
    then pendingSince st else now.
Proof. rewrite step_fields. reflexivity. Qed.

Lemma step_fired (cfg : Config) (st : State) (raw : bool) (now : Z) :
  snd (step cfg st raw now) =
    committedState st && soundEnabled cfg
    && (60000 <=? now - lastFiredAt st).
Proof. rewrite step_fields. simpl. rewrite geb_cooldown. reflexivity. Qed.

Lemma step_lastFiredAt (cfg : Config) (st : State) (raw : bool) (now : Z) :
  lastFiredAt (fst (step cfg st raw now)) =
    if snd (step cfg st raw now) then now else lastFiredAt st.
Proof. rewrite step_fields. reflexivity. Qed.

(** *** Sequences of frames *)

Lemma run_cons (cfg : Config) (st : State) (raw : bool) (now : Z)
    (rest : list (bool * Z)) :
  run cfg st ((raw, now) :: rest) =
    (stateAfter cfg (fst (step cfg st raw now)) rest,
     snd (step cfg st raw now) :: firesOf cfg (fst (step cfg st raw now)) rest).
Proof.
  unfold stateAfter, firesOf. simpl.
  destruct (step cfg st raw now) as [st1 fired]. simpl.
  destruct (run cfg st1 rest) as [st2 fires]. reflexivity.
Qed.

Lemma stateAfter_cons (cfg : Config) (st : State) (raw : bool) (now : Z)
    (rest : list (bool * Z)) :
  stateAfter cfg st ((raw, now) :: rest) =
    stateAfter cfg (fst (step cfg st raw now)) rest.
Proof. unfold stateAfter at 1. rewrite run_cons. reflexivity. Qed.

Lemma firesOf_cons (cfg : Config) (st : State) (raw : bool) (now : Z)
    (rest : list (bool * Z)) :
  firesOf cfg st ((raw, now) :: rest) =
    snd (step cfg st raw now) :: firesOf cfg (fst (step cfg st raw now)) rest.
Proof. unfold firesOf at 1. rewrite run_cons. reflexivity. Qed.

Lemma stateAfter_app (cfg : Config) (frames1 frames2 : list (bool * Z)) :
  forall st,
    stateAfter cfg st (frames1 ++ frames2) =
      stateAfter cfg (stateAfter cfg st frames1) frames2.
Proof.
  induction frames1 as [ | [raw now] rest IH]; intro st.
  - reflexivity.
  - simpl app. rewrite !stateAfter_cons. apply IH.
Qed.

Lemma firesOf_app (cfg : Config) (frames1 frames2 : list (bool * Z)) :
  forall st,
    firesOf cfg st (frames1 ++ frames2) =
      firesOf cfg st frames1
      ++ firesOf cfg (stateAfter cfg st frames1) frames2.
Proof.
  induction frames1 as [ | [raw now] rest IH]; intro st.
  - reflexivity.
  - simpl app. rewrite !firesOf_cons, stateAfter_cons, IH. reflexivity.
Qed.

Lemma countFires_app (fires1 fires2 : list bool) :
  countFires (fires1 ++ fires2) = (countFires fires1 + countFires fires2)%nat.
Proof. unfold countFires. rewrite filter_app, length_app. reflexivity. Qed.

Lemma countFires_cons (fired : bool) (fires : list bool) :
  countFires (fired :: fires) =
    ((if fired then 1 else 0) + countFires fires)%nat.
Proof. unfold countFires. destruct fired; reflexivity. Qed.

(** *** No delay *)

(** C1, as stated, fails: with [delaySeconds = 0], from the state at mount
    (committed [false], pending [false]) the frame [raw = true] differs
    from the committed state and leaves it [false]; it only opens the
    pending episode. *)
Lemma no_delay_first_frame_counterexample :
  let cfg := mkConfig (5 / 100) 0 true in
  let st := initialState 0 in
  delaySeconds cfg = 0%Q /\
  committedState st = false /\
  step cfg st true 1000 = (mkState false (mkRefs 1000 true 0), false).
Proof. vm_compute. repeat split. Qed.

(** C1, amended: with [delaySeconds = 0], a raw frame that differs from
    the committed state flips it on that frame exactly when the pending
    state already holds the raw value and [now] is not earlier than
    [pendingSince]; from a state whose pending state equals the committed
    state, the first differing frame only opens the pending episode and the
    next differing frame, not earlier in time, flips the committed state. *)
Theorem no_delay_commit (cfg : Config) (st : State) (raw : bool) (now : Z) :
  (delaySeconds cfg == 0)%Q ->
  raw <> committedState st ->
  (committedState (fst (step cfg st raw now)) = raw <->
   pending st = raw /\ pendingSince st <= now)
  /\ (pending st = committedState st ->
      forall now', now <= now' ->
        stateAfter cfg st [(raw, now)]
        = mkState (committedState st)
            (mkRefs now raw (lastFiredAt (fst (step cfg st raw now))))
        /\ committedState (stateAfter cfg st [(raw, now); (raw, now')]) = raw).
Proof.
  intros Hd Hraw. split.
  - rewrite step_committed, (geb_no_delay _ _ _ Hd).
    unfold committedState, pending, pendingSince in *.
    destruct st as [c [since p fired]]; simpl in *.
    destruct raw, c, p; simpl; try congruence;
      (split; [ intro H; try discriminate H; try (symmetry in H; discriminate H)
              | intros [H1 H2]; try discriminate H1 ]).
    all: try (destruct (since <=? now) eqn:E;
              [ apply Z.leb_le in E | apply Z.leb_gt in E ]);
      try (split; [ reflexivity | lia ]); try reflexivity;
      try discriminate; try lia.
  - intros Hp now' Hle.
    rewrite !stateAfter_cons. unfold stateAfter. simpl run. simpl fst.
    split.
    + rewrite step_fields.
      unfold committedState, pending, lastFiredAt in *.
      destruct st as [c [since p fired]]; simpl in *. subst p.
      destruct raw, c; simpl; try congruence; reflexivity.
    + rewrite step_committed, step_pending, step_pendingSince.
      rewrite (step_committed cfg st raw now).
      rewrite (geb_no_delay _ _ _ Hd).
      unfold committedState, pending, pendingSince in *.
      destruct st as [c [since p fired]]; simpl in *. subst p.
      destruct raw, c; simpl; try congruence;
        rewrite (geb_no_delay _ _ _ Hd);
        replace (now <=? now') with true
          by (symmetry; apply Z.leb_le; exact Hle); reflexivity.
Qed.

(** From the state at mount: frame 1 opens the episode, frame 2 commits. *)
Lemma no_delay_commit_witness :
  let cfg := mkConfig (5 / 100) 0 true in
  let st := initialState 0 in
  (delaySeconds cfg == 0)%Q /\ true <> committedState st /\
  stateAfter cfg st [(true, 1000)] = mkState false (mkRefs 1000 true 0) /\
  committedState (stateAfter cfg st [(true, 1000); (true, 2000)]) = true.
Proof.
  assert (Hd : (delaySeconds (mkConfig (5 / 100) 0 true) == 0)%Q)
    by reflexivity.
  assert (Hraw : true <> committedState (initialState 0))
    by (simpl; discriminate).
  split; [ exact Hd | split; [ exact Hraw | ] ].
  apply (proj2 (no_delay_commit (mkConfig (5 / 100) 0 true) (initialState 0)
                  true 1000 Hd Hraw) eq_refl 2000).
  lia.
Defined.

(** *** The order of commit and alert in one pass *)

(** C2, as stated, fails: with delay 0, threshold 0.05, sound enabled and
    a frame of ratio 0.08, frame 1 after mount leaves the committed state
    [false] and does not fire; the frame 10 seconds later commits [true],
    and although the committed state after the update is [true] and more
    than 60 seconds lie between [lastSoundTime] and [now], it does not
    fire: the alert read the state from before the update. *)
Lemma alert_after_update_counterexample :
  let cfg := mkConfig (5 / 100) 0 true in
  let results := mkResults (Some [Some (faceWithGap (8 / 100))]) in
  isMouthOpen (Some (faceWithGap (8 / 100))) (threshold cfg) = true /\
  frame cfg (initialState 99000) results 100000
  = (mkState false (mkRefs 100000 true 0), false) /\
  frame cfg (mkState false (mkRefs 100000 true 0)) results 110000
  = (mkState true (mkRefs 100000 true 0), false).
Proof.
  cbv zeta. split; [ exact isMouthOpen_gap_8_threshold_5 | ].
  rewrite !frame_step. simpl threshold.
  rewrite isMouthOpen_gap_8_threshold_5.
  split; vm_compute; reflexivity.
Qed.

(** C2, amended: in one pass the commit is computed first, and the alert
    decision reads the [isMouthOpenState] captured by the callback, which
    is the committed state from before this frame's update.  From the state
    at mount, with delay 0, threshold 0.05, sound enabled, the 60 second
    cooldown and frames of ratio 0.08: frame 1 opens the pending episode,
    leaves the committed state [false] and does not fire; the identical
    frame 10 seconds later commits [true] and does not fire; a further
    identical frame fires when its timestamp is at least 60000 ms. *)
Theorem alert_reads_captured_state :
  (forall (cfg : Config) (st : State) (landmarks : option LandmarkList)
          (others : list (option LandmarkList)) (now : Z),
      snd (frame cfg st (mkResults (Some (landmarks :: others))) now)
      = committedState st && soundEnabled cfg
        && (60000 <=? now - lastFiredAt st))
  /\ (forall mount t1 t3 : Z,
         let cfg := mkConfig (5 / 100) 0 true in
         let results := mkResults (Some [Some (faceWithGap (8 / 100))]) in
         frame cfg (initialState mount) results t1
         = (mkState false (mkRefs t1 true 0), false) /\
         frame cfg (mkState false (mkRefs t1 true 0)) results (t1 + 10000)
         = (mkState true (mkRefs t1 true 0), false) /\
         (60000 <= t3 ->
          frame cfg (mkState true (mkRefs t1 true 0)) results t3
          = (mkState true (mkRefs t3 true t3), true))).
Proof.
  split.
  - intros cfg st landmarks others now. rewrite frame_step. apply step_fired.
  - intros mount t1 t3. cbv zeta. rewrite !frame_step. simpl threshold.
    rewrite isMouthOpen_gap_8_threshold_5, !step_fields. simpl.
    rewrite !geb_cooldown.
    assert (Hd : forall a b, a <= b -> geb (secondsBetween b a) 0 = true).
    { intros a b Hab. rewrite geb_no_delay by reflexivity.
      apply Z.leb_le. exact Hab. }
    rewrite (Hd t1 (t1 + 10000)) by lia. simpl.
    repeat split.
    intro H3. rewrite Z.sub_0_r.
    replace (60000 <=? t3) with true by (symmetry; apply Z.leb_le; exact H3).
    reflexivity.
Qed.

(** Mounted at 99 s, frames at 100 s, 110 s and 111 s. *)
Lemma alert_reads_captured_state_witness :
  let cfg := mkConfig (5 / 100) 0 true in
  let results := mkResults (Some [Some (faceWithGap (8 / 100))]) in
  60000 <= 111000 /\
  frame cfg (mkState true (mkRefs 100000 true 0)) results 111000
  = (mkState true (mkRefs 111000 true 111000), true).
Proof.
  cbv zeta. split; [ lia | ].
  apply (proj2 (proj2 (proj2 alert_reads_captured_state 99000 100000 111000))).
  lia.
Defined.

(** *** A pending episode *)

(** While the candidate value is held and the delay has not elapsed, the
    committed state, the pending state and its timestamp stay as they
    are. *)
Lemma steady_waiting (cfg : Config) (raw : bool) (early : list Z) :
  forall st,
    raw <> committedState st ->
    pending st = raw ->
    (forall u, In u early ->
       (secondsBetween u (pendingSince st) < delaySeconds cfg)%Q) ->
    let st' := stateAfter cfg st (steady raw early) in
    committedState st' = committedState st /\
    pending st' = pending st /\
    pendingSince st' = pendingSince st.
Proof.
  induction early as [ | u rest IH]; intros st Hraw Hp Hearly.
  - repeat split.
  - simpl steady. cbv zeta. rewrite stateAfter_cons.
    assert (Hu : geb (secondsBetween u (pendingSince st)) (delaySeconds cfg)
                 = false).
    { apply geb_false. apply Hearly. left. reflexivity. }
    assert (Hc : committedState (fst (step cfg st raw u)) = committedState st).
    { rewrite step_committed, Hu, andb_false_r. reflexivity. }
    assert (Hp' : pending (fst (step cfg st raw u)) = pending st).
    { rewrite step_pending, Hp.
      destruct raw, (committedState st); simpl; congruence. }
    assert (Hs : pendingSince (fst (step cfg st raw u)) = pendingSince st).
    { rewrite step_pendingSince, Hp.
      destruct raw, (committedState st); simpl; congruence. }
    destruct (IH (fst (step cfg st raw u))) as (H1 & H2 & H3).
    + rewrite Hc. exact Hraw.
    + rewrite Hp'. exact Hp.
    + intros v Hv. rewrite Hs. apply Hearly. right. exact Hv.
    + rewrite H1, H2, H3, Hc, Hp', Hs. repeat split.
Qed.

(** In an episode under way, the first frame at which the delay has
    elapsed commits, and no frame before it does. *)
Lemma episode_commit (cfg : Config) (st : State) (raw : bool)
    (early : list Z) (t : Z) :
  raw <> committedState st ->
  pending st = raw ->
  (forall u, In u early ->
     (secondsBetween u (pendingSince st) < delaySeconds cfg)%Q) ->
  (delaySeconds cfg <= secondsBetween t (pendingSince st))%Q ->
  (forall k,
      committedState (stateAfter cfg st (steady raw (firstn k early)))
      = committedState st) /\
  committedState (stateAfter cfg st (steady raw (early ++ [t]))) = raw.
Proof.
  intros Hraw Hp Hearly Ht. split.
  - intro k.
    apply (steady_waiting cfg raw (firstn k early) st Hraw Hp).
    intros u Hu. apply Hearly.
    rewrite <- (firstn_skipn k early). apply in_or_app. left. exact Hu.
  - unfold steady. rewrite map_app, stateAfter_app. fold (steady raw early).
    destruct (steady_waiting cfg raw early st Hraw Hp Hearly)
      as (H1 & H2 & H3).
    simpl map. rewrite stateAfter_cons. unfold stateAfter. simpl run.
    simpl fst. rewrite step_committed.
    fold (stateAfter cfg st (steady raw early)).
    rewrite H1, H2, H3, Hp.
    assert (Hg : geb (secondsBetween t (pendingSince st)) (delaySeconds cfg)
                 = true) by (apply geb_true; exact Ht).
    rewrite Hg.
    destruct raw, (committedState st); simpl; congruence.
Qed.

(** With nothing pending, a differing frame opens the episode: it sets
    the pending state and its timestamp, and commits nothing. *)
Lemma opening_frame (cfg : Config) (st : State) (raw : bool) (now : Z) :
  raw <> committedState st ->
  pending st = committedState st ->
  committedState (fst (step cfg st raw now)) = committedState st /\
  pending (fst (step cfg st raw now)) = raw /\
  pendingSince (fst (step cfg st raw now)) = now.
Proof.
  intros Hraw Hp.
  rewrite step_committed, step_pending, step_pendingSince, Hp.
  destruct raw, (committedState st); simpl; try congruence; repeat split.
Qed.

(** A change of the committed state needs the pending state to hold the
    raw value and the delay to have elapsed since [pendingSince]. *)
Lemma commit_needs_delay (cfg : Config) (st : State) (raw : bool) (now : Z) :
  committedState (fst (step cfg st raw now)) <> committedState st ->
  pending st = raw /\ raw <> committedState st /\
  (delaySeconds cfg <= secondsBetween now (pendingSince st))%Q.
Proof.
  rewrite step_committed. intro H.
  destruct (geb (secondsBetween now (pendingSince st)) (delaySeconds cfg))
    eqn:E.
  - apply geb_true in E.
    destruct raw, (committedState st), (pending st); simpl in H;
      try congruence; repeat split; try assumption; discriminate.
  - rewrite andb_false_r in H. congruence.
Qed.

(** From a state in which nothing is pending: whenever the pending state
    differs from the committed state, the frames seen so far end with a
    run of frames that all carry the pending value, and [pendingSince] is
    the timestamp of the first frame of that run. *)
Lemma pending_history (cfg : Config) (st0 : State)
    (frames : list (bool * Z)) :
  pending st0 = committedState st0 ->
  let st := stateAfter cfg st0 frames in
  pending st = committedState st \/
  exists before held,
    frames = before ++ (pending st, pendingSince st) :: steady (pending st) held.
Proof.
  intro H0. induction frames as [ | [raw now] rest IH] using rev_ind.
  - left. exact H0.
  - cbv zeta in *. rewrite stateAfter_app.
    set (st := stateAfter cfg st0 rest) in *.
    unfold stateAfter at 1 2 3 4 5. simpl run.
    destruct (step cfg st raw now) as [st' fired] eqn:Estep. simpl fst.
    assert (Est : st' = fst (step cfg st raw now)) by (rewrite Estep; reflexivity).
    assert (Hc := step_committed cfg st raw now).
    assert (Hp := step_pending cfg st raw now).
    assert (Hs := step_pendingSince cfg st raw now).
    rewrite <- Est in Hc, Hp, Hs.
    destruct (negb (eqb raw (committedState st)) && eqb raw (pending st))
      eqn:Etry.
    + (* the signal keeps trying *)
      apply andb_true_iff in Etry. destruct Etry as [E1 E2].
      apply eqb_prop in E2.
      destruct (geb (secondsBetween now (pendingSince st)) (delaySeconds cfg)).
      * left. simpl in Hc. rewrite Hc, Hp. symmetry. exact E2.
      * right. simpl in Hc.
        destruct IH as [IH | (before & held & IH)].
        { exfalso. rewrite E2, IH, eqb_reflx in E1. discriminate E1. }
        exists before, (held ++ [now]).
        rewrite Hp, Hs. clearbody st. subst rest.
        rewrite <- app_assoc. simpl.
        unfold steady. rewrite map_app. simpl. rewrite <- E2. reflexivity.
    + (* the timer restarts at this frame *)
      simpl in Hc. rewrite Hc, Hp, Hs.
      destruct (eqb raw (committedState st)) eqn:E1.
      * left. apply eqb_prop in E1. exact E1.
      * right. exists rest, []. reflexivity.
Qed.

(** C3: in a pending episode (the pending state holds the candidate
    value, opposite to the committed state) during which the raw signal
    stays at the candidate value, for every delay [d] the committed state
    is unchanged after every frame whose elapsed time since [pendingSince]
    is below [d], and becomes the candidate on the first frame at which
    that time is at least [d]; counted from the frame that opens the
    episode, that frame commits nothing and the same holds with the time
    elapsed since it; a frame changes the committed state only
    if the pending state holds the raw value and [d] has elapsed since
    [pendingSince]; and, counted from a state with nothing pending, the
    frames between the one that set [pendingSince] and the committing one
    all carry the candidate value. *)
Theorem commit_exactly_at_delay (cfg : Config) :
  (forall (st : State) (raw : bool) (early : list Z) (t : Z),
      raw <> committedState st ->
      pending st = raw ->
      (forall u, In u early ->
         (secondsBetween u (pendingSince st) < delaySeconds cfg)%Q) ->
      (delaySeconds cfg <= secondsBetween t (pendingSince st))%Q ->
      (forall k,
          committedState (stateAfter cfg st (steady raw (firstn k early)))
          = committedState st) /\
      committedState (stateAfter cfg st (steady raw (early ++ [t]))) = raw)
  /\ (forall (st : State) (raw : bool) (opening : Z) (early : list Z) (t : Z),
         raw <> committedState st ->
         pending st = committedState st ->
         (forall u, In u early ->
            (secondsBetween u opening < delaySeconds cfg)%Q) ->
         (delaySeconds cfg <= secondsBetween t opening)%Q ->
         (forall k,
             committedState
               (stateAfter cfg st (steady raw (firstn k (opening :: early))))
             = committedState st) /\
         committedState
           (stateAfter cfg st (steady raw (opening :: early ++ [t]))) = raw)
  /\ (forall (st : State) (raw : bool) (now : Z),
         committedState (fst (step cfg st raw now)) <> committedState st ->
         pending st = raw /\ raw <> committedState st /\
         (delaySeconds cfg <= secondsBetween now (pendingSince st))%Q)
  /\ (forall (st0 : State) (frames : list (bool * Z)) (raw : bool) (now : Z),
         pending st0 = committedState st0 ->
         let st := stateAfter cfg st0 frames in
         committedState (fst (step cfg st raw now)) <> committedState st ->
         exists before since held,
           frames = before ++ (raw, since) :: steady raw held /\
           (delaySeconds cfg <= secondsBetween now since)%Q).
Proof.
  split; [ | split; [ | split ] ].
  - intros st raw early t. apply episode_commit.
  - intros st raw opening early t Hraw Hp Hearly Ht.
    destruct (opening_frame cfg st raw opening Hraw Hp) as (Oc & Op & Os).
    destruct (episode_commit cfg (fst (step cfg st raw opening)) raw early t)
      as [Hk Hlast].
    + rewrite Oc. exact Hraw.
    + exact Op.
    + rewrite Os. exact Hearly.
    + rewrite Os. exact Ht.
    + split.
      * intros [ | k]; [ reflexivity | ].
        simpl firstn. simpl steady. rewrite stateAfter_cons.
        fold (steady raw (firstn k early)). rewrite Hk. exact Oc.
      * simpl steady. rewrite stateAfter_cons.
        fold (steady raw (early ++ [t])). exact Hlast.
  - intros st raw now. apply commit_needs_delay.
  - intros st0 frames raw now H0 st Hchange.
    destruct (commit_needs_delay cfg st raw now Hchange) as (Hp & Hraw & Hd).
    destruct (pending_history cfg st0 frames H0) as [Hq | (before & held & Hf)].
    + exfalso. fold st in Hq. congruence.
    + fold st in Hf. rewrite Hp in Hf.
      exists before, (pendingSince st), held. split; assumption.
Qed.

(** Episode opened at 1 s, delay 2 s: frames at 1.5 s and 2.999 s wait, the
    frame at 3 s commits. *)
Lemma commit_exactly_at_delay_witness :
  let cfg := mkConfig (5 / 100) 2 true in
  let st := mkState false (mkRefs 1000 true 0) in
  (secondsBetween 2999 (pendingSince st) < delaySeconds cfg)%Q /\
  (delaySeconds cfg <= secondsBetween 3000 (pendingSince st))%Q /\
  committedState (stateAfter cfg st (steady true [1500; 2999])) = false /\
  committedState (stateAfter cfg st (steady true [1500; 2999; 3000])) = true.
Proof.
  cbv zeta.
  assert (Hearly : forall u, In u [1500; 2999] ->
            (secondsBetween u 1000 < 2)%Q).
  { intros u [<- | [<- | []]]; reflexivity. }
  assert (Ht : (2 <= secondsBetween 3000 1000)%Q) by (vm_compute; discriminate).
  destruct (proj1 (commit_exactly_at_delay (mkConfig (5 / 100) 2 true))
              (mkState false (mkRefs 1000 true 0)) true [1500; 2999] 3000)
    as [Hk Hlast].
  - simpl. discriminate.
  - reflexivity.
  - exact Hearly.
  - exact Ht.
  - split; [ apply Hearly; right; left; reflexivity | ].
    split; [ exact Ht | ].
    split; [ exact (Hk 2%nat) | exact Hlast ].
Defined.

(** *** Glitches *)

Lemma glitchesOnly_firstn (d : Q) (c : bool) (frames : list (bool * Z)) :
  forall (since : option Z) (k : nat),
    glitchesOnly d c since frames = true ->
    glitchesOnly d c since (firstn k frames) = true.
Proof.
  induction frames as [ | [raw now] rest IH]; intros since k H.
  - destruct k; reflexivity.
  - destruct k as [ | k]; [ reflexivity | ].
    simpl in *. destruct (eqb raw c).
    + apply IH. exact H.
    + destruct since as [start | ].
      * apply andb_true_iff in H. destruct H as [H1 H2].
        rewrite H1. simpl. apply IH. exact H2.
      * apply IH. exact H.
Qed.

(** Runs of disagreement shorter than the delay leave the committed state
    alone. *)
Lemma glitches_keep_committed (cfg : Config) (c : bool)
    (frames : list (bool * Z)) :
  forall (st : State) (since : option Z),
    committedState st = c ->
    match since with
    | None => pending st = c
    | Some start => pending st = negb c /\ pendingSince st = start
    end ->
    glitchesOnly (delaySeconds cfg) c since frames = true ->
    committedState (stateAfter cfg st frames) = c.
Proof.
  induction frames as [ | [raw now] rest IH]; intros st since Hc Hsince Hg.
  - exact Hc.
  - rewrite stateAfter_cons. simpl in Hg.
    destruct (eqb raw c) eqn:E.
    + pose proof (step_committed cfg st raw now) as Sc.
      pose proof (step_pending cfg st raw now) as Sp.
      rewrite Hc, E in Sc, Sp. simpl in Sc, Sp.
      apply eqb_prop in E. subst raw.
      apply (IH _ None); assumption.
    + assert (Hraw : raw = negb c)
        by (apply eqb_false_iff in E; destruct raw, c; simpl; congruence).
      pose proof (step_committed cfg st raw now) as Sc.
      pose proof (step_pending cfg st raw now) as Sp.
      pose proof (step_pendingSince cfg st raw now) as Ss.
      rewrite Hc, E in Sc, Sp, Ss. simpl in Sc, Sp, Ss.
      destruct since as [start | ].
      * destruct Hsince as [Hp Hs].
        apply andb_true_iff in Hg. destruct Hg as [Hshort Hrest].
        apply negb_true_iff in Hshort.
        rewrite Hp, <- Hraw, eqb_reflx in Sc, Sp, Ss.
        rewrite Hs, Hshort in Sc. simpl in Sc.
        apply (IH _ (Some start)); [ exact Sc | | exact Hrest ].
        split; [ rewrite Sp; exact Hraw | rewrite Ss; exact Hs ].
      * rewrite Hsince, E in Sc, Sp, Ss. simpl in Sc.
        apply (IH _ (Some now)); [ exact Sc | | exact Hg ].
        split; [ rewrite Sp; exact Hraw | exact Ss ].
Qed.

(** A run of disagreeing frames, each less than the delay after the first
    of them, is a glitch. *)
Lemma glitchesOnly_run (d : Q) (c : bool) (opening : Z) (more : list Z)
    (rest : list (bool * Z)) :
  (forall u, In u more -> (secondsBetween u opening < d)%Q) ->
  glitchesOnly d c (Some opening) (steady (negb c) more ++ rest)
  = glitchesOnly d c (Some opening) rest.
Proof.
  induction more as [ | u more IH]; intro Hmore.
  - reflexivity.
  - simpl.
    assert (E : eqb (negb c) c = false) by (destruct c; reflexivity).
    assert (Hu : geb (secondsBetween u opening) d = false).
    { apply geb_false. apply Hmore. left. reflexivity. }
    rewrite E, Hu. simpl. apply IH.
    intros v Hv. apply Hmore. right. exact Hv.
Qed.

(** C4: for every delay [d] (in particular [d > 0]), from a state with
    nothing pending: if the raw signal flips away from the committed
    state and flips back while every disagreeing frame is less than [d]
    seconds after the first one, the committed state is the same after
    every frame of the sequence; the same holds for any sequence in which
    every run of disagreeing frames is that short; and a frame that agrees
    with the committed state restarts the pending timer at its own
    timestamp, so that time spent in earlier runs does not add up. *)
Theorem glitches_never_commit (cfg : Config) (st : State) :
  (forall (opening : Z) (more : list Z) (back : Z),
      pending st = committedState st ->
      (forall u, In u more ->
         (secondsBetween u opening < delaySeconds cfg)%Q) ->
      forall k,
        committedState
          (stateAfter cfg st
             (firstn k (steady (negb (committedState st)) (opening :: more)
                        ++ [(committedState st, back)])))
        = committedState st)
  /\ (forall frames : list (bool * Z),
         pending st = committedState st ->
         glitchesOnly (delaySeconds cfg) (committedState st) None frames
         = true ->
         forall k,
           committedState (stateAfter cfg st (firstn k frames))
           = committedState st)
  /\ (forall (raw : bool) (now : Z),
         raw = committedState st ->
         committedState (fst (step cfg st raw now)) = committedState st /\
         pending (fst (step cfg st raw now)) = raw /\
         pendingSince (fst (step cfg st raw now)) = now).
Proof.
  assert (General : forall frames : list (bool * Z),
             pending st = committedState st ->
             glitchesOnly (delaySeconds cfg) (committedState st) None frames
             = true ->
             forall k,
               committedState (stateAfter cfg st (firstn k frames))
               = committedState st).
  { intros frames Hp Hg k.
    apply (glitches_keep_committed cfg (committedState st)
             (firstn k frames) st None).
    - reflexivity.
    - exact Hp.
    - apply glitchesOnly_firstn. exact Hg. }
  split; [ | split; [ exact General | ] ].
  - intros opening more back Hp Hmore k. apply General; [ exact Hp | ].
    set (c := committedState st).
    simpl.
    assert (E : eqb (negb c) c = false) by (destruct c; reflexivity).
    rewrite E, glitchesOnly_run by exact Hmore.
    simpl. rewrite eqb_reflx. reflexivity.
  - intros raw now Hraw.
    rewrite step_committed, step_pending, step_pendingSince, <- Hraw.
    rewrite eqb_reflx. simpl. repeat split.
Qed.

(** Delay 2 s: disagreement from 0 s to 1.5 s, a return at 1.6 s, then
    disagreement from 1.7 s to 3.2 s.  The candidate value was seen for
    3 s in all, yet nothing is committed. *)
Lemma glitches_never_commit_witness :
  let cfg := mkConfig (5 / 100) 2 true in
  let frames :=
    [(true, 0); (true, 1500); (false, 1600); (true, 1700); (true, 3200)] in
  committedState (stateAfter cfg (initialState 0)
                    [(true, 0); (true, 1500); (false, 1600)]) = false /\
  glitchesOnly (delaySeconds cfg) false None frames = true /\
  committedState (stateAfter cfg (initialState 0) frames) = false /\
  pendingSince (fst (step cfg (initialState 0) false 1600)) = 1600.
Proof.
  cbv zeta.
  assert (Hmore : forall u, In u [1500] -> (secondsBetween u 0 < 2)%Q).
  { intros u [<- | []]. reflexivity. }
  assert (Hg : glitchesOnly 2 false None
                 [(true, 0); (true, 1500); (false, 1600); (true, 1700);
                  (true, 3200)] = true) by reflexivity.
  split; [ | split; [ exact Hg | split ] ].
  - exact (proj1 (glitches_never_commit (mkConfig (5 / 100) 2 true)
                    (initialState 0)) 0 [1500] 1600 eq_refl Hmore 3%nat).
  - exact (proj1 (proj2 (glitches_never_commit (mkConfig (5 / 100) 2 true)
                           (initialState 0))) _ eq_refl Hg 5%nat).
  - apply (proj2 (proj2 (glitches_never_commit (mkConfig (5 / 100) 2 true)
                           (initialState 0))) false 1600 eq_refl).
Defined.

(** *** The sound alert *)

(** Frames without an alert leave [lastSoundTime] as it is. *)
Lemma quiet_keeps_lastFiredAt (cfg : Config) (frames : list (bool * Z)) :
  forall st,
    countFires (firesOf cfg st frames) = 0%nat ->
    lastFiredAt (stateAfter cfg st frames) = lastFiredAt st.
Proof.
  induction frames as [ | [raw now] rest IH]; intros st Hquiet.
  - reflexivity.
  - rewrite firesOf_cons, countFires_cons in Hquiet.
    rewrite stateAfter_cons.
    pose proof (step_lastFiredAt cfg st raw now) as Hl.
    destruct (snd (step cfg st raw now)); [ discriminate Hquiet | ].
    rewrite IH by exact Hquiet. exact Hl.
Qed.

(** The alert fires under exactly three conditions. *)
Lemma fired_iff (cfg : Config) (st : State) (raw : bool) (now : Z) :
  snd (step cfg st raw now) = true <->
  committedState st = true /\ soundEnabled cfg = true /\
  60000 <= now - lastFiredAt st.
Proof.
  rewrite step_fired, !andb_true_iff, Z.leb_le. tauto.
Qed.

(** C5, as stated, fails: mounted at time 0 with no delay, the frames at
    1 s and 2 s make the committed state [true]; the frame at 3 s is the
    first one to find it [true] with the sound enabled and no alert fired
    so far, and it does not fire. *)
Lemma first_alert_counterexample :
  let cfg := mkConfig (5 / 100) 0 true in
  let st := stateAfter cfg (initialState 0) [(true, 1000); (true, 2000)] in
  st = mkState true (mkRefs 1000 true 0) /\
  soundEnabled cfg = true /\
  firesOf cfg (initialState 0) [(true, 1000); (true, 2000)] = [false; false] /\
  step cfg st true 3000 = (mkState true (mkRefs 3000 true 0), false).
Proof. vm_compute. repeat split. Qed.

(** C5, amended: at mount [lastSoundTime] is 0 (the code has no value for
    "never"), and the alert fires exactly when the captured committed
    state is [true], the sound is enabled and [now - lastSoundTime] is at
    least the fixed 60 seconds; so the first qualifying frame after mount
    fires if and only if [now] is at least 60000 ms. *)
Theorem first_alert_after_one_minute :
  (forall mount : Z, lastFiredAt (initialState mount) = 0)
  /\ (forall (cfg : Config) (st : State) (raw : bool) (now : Z),
         snd (step cfg st raw now) = true <->
         committedState st = true /\ soundEnabled cfg = true /\
         60000 <= now - lastFiredAt st)
  /\ (forall (cfg : Config) (mount : Z) (frames : list (bool * Z))
             (raw : bool) (now : Z),
         let st := stateAfter cfg (initialState mount) frames in
         countFires (firesOf cfg (initialState mount) frames) = 0%nat ->
         committedState st = true ->
         soundEnabled cfg = true ->
         (snd (step cfg st raw now) = true <-> 60000 <= now)).
Proof.
  split; [ reflexivity | split ].
  - apply fired_iff.
  - intros cfg mount frames raw now st Hquiet Hc He.
    rewrite fired_iff. unfold st.
    rewrite (quiet_keeps_lastFiredAt cfg frames _ Hquiet).
    fold st. change (lastFiredAt (initialState mount)) with 0.
    rewrite Z.sub_0_r. tauto.
Qed.

(** Mounted at 99 s: the first qualifying frame, at 100.002 s, fires. *)
Lemma first_alert_after_one_minute_witness :
  let cfg := mkConfig (5 / 100) 0 true in
  let frames := [(true, 100000); (true, 100001)] in
  let st := stateAfter cfg (initialState 99000) frames in
  countFires (firesOf cfg (initialState 99000) frames) = 0%nat /\
  committedState st = true /\
  snd (step cfg st true 100002) = true.
Proof.
  cbv zeta.
  assert (Hquiet : countFires (firesOf (mkConfig (5 / 100) 0 true)
                     (initialState 99000) [(true, 100000); (true, 100001)])
                   = 0%nat) by (vm_compute; reflexivity).
  assert (Hc : committedState (stateAfter (mkConfig (5 / 100) 0 true)
                 (initialState 99000) [(true, 100000); (true, 100001)])
               = true) by (vm_compute; reflexivity).
  split; [ exact Hquiet | split; [ exact Hc | ] ].
  apply (proj2 (proj2 first_alert_after_one_minute)
           (mkConfig (5 / 100) 0 true) 99000
           [(true, 100000); (true, 100001)] true 100002 Hquiet Hc eq_refl).
  lia.
Defined.

(** C6, as stated, fails: mounted at 99 s with no delay, the alert fires
    at 100.002 s.  The frames at 110 s and 140 s both find the committed
    state [true] and are 30 seconds apart: neither fires.  The frames at
    110 s and 171 s are 61 seconds apart: only the second fires.  The same
    happens before any alert has fired, [lastSoundTime] being 0, for the
    pairs of frames at 3 s and 33 s, and at 3 s and 64 s. *)
Lemma cooldown_pairs_counterexample :
  let cfg := mkConfig (5 / 100) 0 true in
  let st :=
    stateAfter cfg (initialState 99000)
      [(true, 100000); (true, 100001); (true, 100002)] in
  st = mkState true (mkRefs 100002 true 100002) /\
  run cfg st [(true, 110000); (true, 140000)]
  = (mkState true (mkRefs 140000 true 100002), [false; false]) /\
  run cfg st [(true, 110000); (true, 171000)]
  = (mkState true (mkRefs 171000 true 171000), [false; true]) /\
  firesOf cfg (mkState true (mkRefs 1000 true 0))
    [(true, 3000); (true, 33000)] = [false; false] /\
  firesOf cfg (mkState true (mkRefs 1000 true 0))
    [(true, 3000); (true, 64000)] = [false; true].
Proof. vm_compute. repeat split. Qed.

(** C6, amended: with the fixed 60 second cooldown and the sound enabled,
    when the first of two qualifying frames fires (60 seconds or more
    since [lastSoundTime]) and no alert fires in between, the second one
    fires exactly when it is 60 seconds or more after the first: 30
    seconds apart give one alert, 61 seconds apart give two.  The cooldown
    is wall-clock time since the last alert: [lastSoundTime] changes only
    when an alert fires, whatever happens to the committed state. *)
Theorem cooldown_between_pair (cfg : Config) (st : State) :
  (forall (raw1 : bool) (t1 : Z) (between : list (bool * Z))
          (raw2 : bool) (t2 : Z),
      soundEnabled cfg = true ->
      committedState st = true ->
      60000 <= t1 - lastFiredAt st ->
      let st1 := fst (step cfg st raw1 t1) in
      countFires (firesOf cfg st1 between) = 0%nat ->
      committedState (stateAfter cfg st1 between) = true ->
      let fires := firesOf cfg st ((raw1, t1) :: between ++ [(raw2, t2)]) in
      countFires fires = (if 60000 <=? t2 - t1 then 2%nat else 1%nat) /\
      (t2 - t1 = 30000 -> countFires fires = 1%nat) /\
      (t2 - t1 = 61000 -> countFires fires = 2%nat))
  /\ (forall (raw : bool) (now : Z),
         lastFiredAt (fst (step cfg st raw now)) =
           if snd (step cfg st raw now) then now else lastFiredAt st).
Proof.
  split; [ | intros raw now; apply step_lastFiredAt ].
  intros raw1 t1 between raw2 t2 He Hc Hcool st1 Hquiet Hc2 fires.
  assert (Hfire1 : snd (step cfg st raw1 t1) = true).
  { apply fired_iff. repeat split; assumption. }
  assert (Hlast1 : lastFiredAt st1 = t1).
  { unfold st1. rewrite step_lastFiredAt, Hfire1. reflexivity. }
  assert (Hlast2 : lastFiredAt (stateAfter cfg st1 between) = t1).
  { rewrite (quiet_keeps_lastFiredAt cfg between st1 Hquiet). exact Hlast1. }
  assert (Hcount : countFires fires
                   = (if 60000 <=? t2 - t1 then 2%nat else 1%nat)).
  { unfold fires. rewrite firesOf_cons, countFires_cons, Hfire1.
    fold st1. rewrite firesOf_app, countFires_app, Hquiet.
    rewrite firesOf_cons, countFires_cons, step_fired, Hc2, He, Hlast2.
    simpl. destruct (60000 <=? t2 - t1); reflexivity. }
  split; [ exact Hcount | split ]; intro Hgap; rewrite Hcount, Hgap;
    reflexivity.
Qed.

(** After the alert at 100.002 s the committed state goes to [false] and
    back to [true]; the qualifying frame at 130.002 s does not fire. *)
Lemma cooldown_between_pair_witness :
  let cfg := mkConfig (5 / 100) 0 true in
  let st := mkState true (mkRefs 100001 true 0) in
  let between :=
    [(false, 110000); (false, 110001); (true, 120000); (true, 120001)] in
  committedState (stateAfter cfg (fst (step cfg st true 100002))
                    [(false, 110000); (false, 110001)]) = false /\
  countFires (firesOf cfg st
                ((true, 100002) :: between ++ [(true, 130002)])) = 1%nat.
Proof.
  cbv zeta. split; [ vm_compute; reflexivity | ].
  apply (proj1 (cooldown_between_pair (mkConfig (5 / 100) 0 true)
                  (mkState true (mkRefs 100001 true 0)))
           true 100002
           [(false, 110000); (false, 110001); (true, 120000); (true, 120001)]
           true 130002).
  - reflexivity.
  - reflexivity.
  - simpl. lia.
  - vm_compute. reflexivity.
  - vm_compute. reflexivity.
  - reflexivity.
Defined.

End DetectorFacts.

(** ** More about geometry.js *)

Module GeometryExtras.

Import Geometry GeometryFacts.
Local Open Scope R_scope.

(** X4: lowering the threshold never closes an open mouth: a frame
    classified [true] at a threshold is classified [true] at every smaller
    threshold. *)
Theorem isMouthOpen_threshold_antitone (landmarks : option LandmarkList)
    (threshold threshold' : R) :
  threshold' <= threshold ->
  isMouthOpen landmarks threshold = true ->
  isMouthOpen landmarks threshold' = true.
Proof.
  intros Hle. rewrite !isMouthOpen_by_division.
  destruct (isMouthOpen_divisions landmarks) as [ | [m f] [ | ? ?]];
    try discriminate.
  rewrite !gtb_true. lra.
Qed.

Lemma isMouthOpen_threshold_antitone_witness :
  isMouthOpen (Some (faceWithGap (8 / 100))) (1 / 100) = true.
Proof.
  apply (isMouthOpen_threshold_antitone _ (5 / 100)).
  - lra.
  - exact isMouthOpen_gap_8_threshold_5.
Defined.

(** X5: a landmark array with fewer than 153 entries is classified
    [false]: index 152, the chin, reads [undefined]. *)
Theorem isMouthOpen_short_array (lm : LandmarkList) (threshold : R) :
  (length lm <= 152)%nat ->
  isMouthOpen (Some lm) threshold = false.
Proof.
  intro Hlen.
  assert (Hchin : landmarkAt lm CHIN = None).
  { unfold landmarkAt, CHIN.
    replace (nth_error lm 152) with (@None (option Point3D)); [ reflexivity | ].
    symmetry. apply nth_error_None. exact Hlen. }
  unfold isMouthOpen. rewrite Hchin.
  destruct (landmarkAt lm UPPER_LIP_BOTTOM);
    destruct (landmarkAt lm LOWER_LIP_TOP);
    destruct (landmarkAt lm FOREHEAD); reflexivity.
Qed.

(** The first 152 entries of a full face. *)
Lemma isMouthOpen_short_array_witness :
  isMouthOpen (Some (firstn 152 (faceWithGap 1))) (5 / 100) = false.
Proof.
  apply isMouthOpen_short_array. rewrite length_firstn. apply Nat.le_min_l.
Defined.

(** X7: closed lips are never classified open: when the two lip landmarks
    coincide and the threshold is not negative, the result is [false]. *)
Theorem isMouthOpen_closed_lips (lm : LandmarkList) (threshold : R)
    (upperLipBottom lowerLipTop : Point3D) :
  0 <= threshold ->
  landmarkAt lm 13 = Some upperLipBottom ->
  landmarkAt lm 14 = Some lowerLipTop ->
  x upperLipBottom = x lowerLipTop ->
  y upperLipBottom = y lowerLipTop ->
  z upperLipBottom = z lowerLipTop ->
  isMouthOpen (Some lm) threshold = false.
Proof.
  intros Hth Hu Hl Hx Hy Hz.
  unfold isMouthOpen, UPPER_LIP_BOTTOM, LOWER_LIP_TOP, FOREHEAD, CHIN.
  rewrite Hu, Hl.
  destruct (landmarkAt lm 10) as [f | ];
    destruct (landmarkAt lm 152) as [c | ]; try reflexivity.
  cbv zeta. rewrite (calculateDistance_same _ _ Hx Hy Hz).
  destruct (isZero (calculateDistance f c)); [ reflexivity | ].
  apply gtb_false. unfold Rdiv. rewrite Rmult_0_l. exact Hth.
Qed.

Lemma isMouthOpen_closed_lips_witness :
  isMouthOpen (Some (faceWithGap 0)) (5 / 100) = false.
Proof.
  apply (isMouthOpen_closed_lips (faceWithGap 0) (5 / 100)
           (mkPoint 0 0 0) (mkPoint 0 0 0)); try reflexivity.
  lra.
Defined.

End GeometryExtras.

(** ** More about the frame callback *)

Module DetectorExtras.

Import Geometry GeometryFacts Detector DetectorFacts.
Local Open Scope Z_scope.

(** *** Calls of [onResults] *)

Lemma play_cons (cfg : Config) (st : State) (results : Results) (now : Z)
    (rest : list (Results * Z)) :
  play cfg st ((results, now) :: rest) =
    (fst (play cfg (fst (frame cfg st results now)) rest),
     snd (frame cfg st results now)
     :: snd (play cfg (fst (frame cfg st results now)) rest)).
Proof.
  simpl. destruct (frame cfg st results now) as [st1 fired]. simpl.
  destruct (play cfg st1 rest) as [st2 fires]. reflexivity.
Qed.

(** X8: only the first detected face counts: the other entries of
    [multiFaceLandmarks] change neither the new state nor the alert. *)
Theorem frame_first_face_only (cfg : Config) (st : State)
    (landmarks : option LandmarkList)
    (others others' : list (option LandmarkList)) (now : Z) :
  frame cfg st (mkResults (Some (landmarks :: others))) now
  = frame cfg st (mkResults (Some (landmarks :: others'))) now.
Proof. rewrite !frame_step. reflexivity. Qed.

(** X9: a call without a face (no [multiFaceLandmarks], or an empty one)
    leaves the three refs as they are and asks for [setIsLoading(false)]
    only: [isMouthOpenState] is not set and nothing is played, while
    [isLoading] is cleared, as it is by every call.  So a sequence of calls
    ends with the same [isMouthOpenState] and refs, and with as many
    alerts, as the sequence of its calls that carry a face, each taken as
    a frame with the classification of its first face. *)
Theorem play_skips_faceless (cfg : Config) :
  (forall (captured : bool) (refs : Refs) (results : Results) (now : Z),
      multiFaceLandmarks results = None \/
      multiFaceLandmarks results = Some [] ->
      onResults cfg captured refs results now = (refs, [SetIsLoading false]))
  /\ (forall (captured : bool) (refs : Refs) (results : Results) (now : Z)
             (isLoading : bool),
         renderLoading isLoading
           (snd (onResults cfg captured refs results now)) = false)
  /\ (forall (st : State) (inputs : list (Results * Z)),
         fst (play cfg st inputs) = stateAfter cfg st (classified cfg inputs) /\
         countFires (snd (play cfg st inputs))
         = countFires (firesOf cfg st (classified cfg inputs))).
Proof.
  split; [ | split ].
  - intros captured refs results now [H | H]; unfold onResults; rewrite H;
      reflexivity.
  - intros captured refs results now isLoading. unfold onResults.
    destruct (match multiFaceLandmarks results with
              | Some (landmarks :: _) =>
                  let currentState := isMouthOpen landmarks (threshold cfg) in
                  onFace (delaySeconds cfg) (soundEnabled cfg) captured refs
                    currentState now
              | _ => (refs, [])
              end) as [refs' effects].
    cbn [snd]. unfold renderLoading. rewrite fold_left_app. reflexivity.
  - intros st inputs. revert st.
    induction inputs as [ | [[faces] now] rest IH]; intro st.
    + split; reflexivity.
    + rewrite play_cons. cbn [fst snd]. rewrite countFires_cons.
      destruct faces as [[ | landmarks others] | ].
      * rewrite frame_no_face by (right; reflexivity). apply IH.
      * rewrite frame_step.
        change (classified cfg
                  ((mkResults (Some (landmarks :: others)), now) :: rest))
          with ((isMouthOpen landmarks (threshold cfg), now)
                :: classified cfg rest).
        rewrite stateAfter_cons, firesOf_cons, countFires_cons.
        destruct (IH (fst (step cfg st
                             (isMouthOpen landmarks (threshold cfg)) now)))
          as [H1 H2].
        rewrite H1, H2. split; reflexivity.
      * rewrite frame_no_face by (left; reflexivity). apply IH.
Qed.

(** The first call after mount, without a face: nothing but the loading
    flag changes. *)
Lemma play_skips_faceless_witness :
  let cfg := mkConfig (5 / 100) 0 true in
  onResults cfg false (mkRefs 99000 false 0) (mkResults (Some [])) 100000
  = (mkRefs 99000 false 0, [SetIsLoading false]) /\
  renderLoading true
    (snd (onResults cfg false (mkRefs 99000 false 0) (mkResults (Some []))
            100000)) = false.
Proof.
  cbv zeta. split.
  - apply (proj1 (play_skips_faceless (mkConfig (5 / 100) 0 true))).
    right. reflexivity.
  - apply (proj1 (proj2 (play_skips_faceless (mkConfig (5 / 100) 0 true)))).
Defined.

Lemma play_app (cfg : Config) (inputs1 inputs2 : list (Results * Z)) :
  forall st,
    fst (play cfg st (inputs1 ++ inputs2))
    = fst (play cfg (fst (play cfg st inputs1)) inputs2).
Proof.
  induction inputs1 as [ | [results now] rest IH]; intro st.
  - reflexivity.
  - simpl app. rewrite !play_cons. cbn [fst]. apply IH.
Qed.

(** Calls without a face leave the state as it is. *)
Lemma play_faceless (cfg : Config) (gaps : list (Results * Z)) :
  (forall input, In input gaps ->
     multiFaceLandmarks (fst input) = None \/
     multiFaceLandmarks (fst input) = Some []) ->
  forall st, fst (play cfg st gaps) = st.
Proof.
  induction gaps as [ | [results now] rest IH]; intros H st.
  - reflexivity.
  - rewrite play_cons. cbn [fst].
    rewrite (frame_no_face cfg st results now)
      by (exact (H (results, now) (or_introl eq_refl))).
    apply IH. intros input Hin. apply H. right. exact Hin.
Qed.

(** X10: losing the face does not restart the delay.  With nothing
    pending, a frame whose classification differs from the committed state
    opens the episode; after any number of calls without a face, a frame
    with the same classification commits it as soon as [delaySeconds] have
    passed since the opening frame. *)
Theorem delay_runs_through_face_loss (cfg : Config) (st : State)
    (landmarks landmarks' : option LandmarkList)
    (others others' : list (option LandmarkList))
    (opening : Z) (gaps : list (Results * Z)) (now : Z) :
  let raw := isMouthOpen landmarks (threshold cfg) in
  isMouthOpen landmarks' (threshold cfg) = raw ->
  raw <> committedState st ->
  pending st = committedState st ->
  (forall input, In input gaps ->
     multiFaceLandmarks (fst input) = None \/
     multiFaceLandmarks (fst input) = Some []) ->
  (delaySeconds cfg <= secondsBetween now opening)%Q ->
  committedState
    (fst (play cfg st
            ((mkResults (Some (landmarks :: others)), opening)
             :: gaps ++ [(mkResults (Some (landmarks' :: others')), now)])))
  = raw.
Proof.
  intros raw Hsame Hraw Hp Hgaps Hd.
  rewrite play_cons. cbn [fst]. rewrite frame_step. fold raw.
  rewrite play_app, (play_faceless cfg gaps Hgaps).
  rewrite play_cons. cbn [fst play]. rewrite frame_step, Hsame.
  destruct (opening_frame cfg st raw opening Hraw Hp) as (Oc & Op & Os).
  destruct (episode_commit cfg (fst (step cfg st raw opening)) raw [] now)
    as [_ Hcommit].
  - rewrite Oc. exact Hraw.
  - exact Op.
  - intros u [].
  - rewrite Os. exact Hd.
  - simpl app in Hcommit. simpl steady in Hcommit.
    rewrite stateAfter_cons in Hcommit. exact Hcommit.
Qed.

(** An open mouth at 100 s, no face at 101 s and 102 s, the open mouth
    again at 103 s, with a delay of 2 s. *)
Lemma delay_runs_through_face_loss_witness :
  let cfg := mkConfig (5 / 100) 2 true in
  let face := mkResults (Some [Some (faceWithGap (8 / 100))]) in
  committedState
    (fst (play cfg (initialState 99000)
            ((face, 100000)
             :: [(mkResults None, 101000); (mkResults (Some []), 102000)]
             ++ [(face, 103000)])))
  = true.
Proof.
  cbv zeta.
  pose proof (delay_runs_through_face_loss (mkConfig (5 / 100) 2 true)
                (initialState 99000)
                (Some (faceWithGap (8 / 100))) (Some (faceWithGap (8 / 100)))
                [] [] 100000
                [(mkResults None, 101000); (mkResults (Some []), 102000)]
                103000) as H.
  cbv zeta in H. simpl threshold in H.
  rewrite isMouthOpen_gap_8_threshold_5 in H.
  apply H.
  - reflexivity.
  - simpl. discriminate.
  - reflexivity.
  - intros input [<- | [<- | []]]; [ left | right ]; reflexivity.
  - vm_compute. discriminate.
Defined.

(** X11: what one call asks for.  [setIsLoading(false)] comes last, always.
    Before it there is at most one [setIsMouthOpenState], and only with
    the value opposite to the captured state, and at most one chime, and
    only when the captured state is [true]; a chime beside a state change
    means that the state changes to [false]. *)
Theorem onResults_effects (cfg : Config) (captured : bool) (refs : Refs)
    (results : Results) (now : Z) :
  let effects := snd (onResults cfg captured refs results now) in
  effects = [SetIsLoading false] \/
  effects = [SetIsMouthOpenState (negb captured); SetIsLoading false] \/
  (captured = true /\ effects = [PlayAlertSound; SetIsLoading false]) \/
  (captured = true /\
   effects = [SetIsMouthOpenState false; PlayAlertSound; SetIsLoading false]).
Proof.
  unfold onResults.
  destruct (multiFaceLandmarks results) as [[ | landmarks others] | ];
    try (left; reflexivity).
  cbv zeta.
  set (raw := isMouthOpen landmarks (threshold cfg)). clearbody raw.
  unfold onFace, stateChange, soundAlert.
  destruct raw, captured, (pendingState refs), (soundEnabled cfg);
    cbn [eqb negb andb];
    repeat match goal with
      | |- context [geb ?a ?b] => destruct (geb a b)
      end;
    cbn [app snd negb];
    first [ left; reflexivity
          | right; left; reflexivity
          | right; right; left; split; reflexivity
          | right; right; right; split; reflexivity ].
Qed.

(** *** The sound alert over a sequence of frames *)

Lemma fireTimes_cons (cfg : Config) (st : State) (raw : bool) (now : Z)
    (rest : list (bool * Z)) :
  fireTimes cfg st ((raw, now) :: rest) =
    if snd (step cfg st raw now)
    then now :: fireTimes cfg (fst (step cfg st raw now)) rest
    else fireTimes cfg (fst (step cfg st raw now)) rest.
Proof. simpl. destruct (step cfg st raw now) as [st1 fired]. reflexivity. Qed.

(** X12: with the sound switched off no frame plays the chime, and
    [lastSoundTime] stays as it is, over any sequence of frames. *)
Theorem sound_disabled_silent (cfg : Config) (frames : list (bool * Z)) :
  soundEnabled cfg = false ->
  forall st,
    fireTimes cfg st frames = [] /\
    countFires (firesOf cfg st frames) = 0%nat /\
    lastFiredAt (stateAfter cfg st frames) = lastFiredAt st.
Proof.
  intro Hoff. induction frames as [ | [raw now] rest IH]; intro st.
  - repeat split.
  - rewrite fireTimes_cons, firesOf_cons, countFires_cons, stateAfter_cons.
    pose proof (step_lastFiredAt cfg st raw now) as Hl.
    assert (Hf : snd (step cfg st raw now) = false).
    { rewrite step_fired, Hoff, andb_false_r. reflexivity. }
    rewrite Hf in *.
    destruct (IH (fst (step cfg st raw now))) as (H1 & H2 & H3).
    rewrite H1, H2, H3, Hl. repeat split.
Qed.

(** A mouth committed open for three minutes, with the sound off. *)
Lemma sound_disabled_silent_witness :
  let cfg := mkConfig (5 / 100) 0 false in
  let st := mkState true (mkRefs 100000 true 0) in
  countFires (firesOf cfg st [(true, 100000); (true, 200000); (true, 300000)])
  = 0%nat.
Proof.
  cbv zeta.
  apply (sound_disabled_silent (mkConfig (5 / 100) 0 false)
           [(true, 100000); (true, 200000); (true, 300000)] eq_refl
           (mkState true (mkRefs 100000 true 0))).
Defined.

(** The committed state, the pending state and its timestamp after a
    frame are decided by those three, the delay and the frame. *)
Lemma debounce_step_independent (cfg cfg' : Config) (st st' : State)
    (raw : bool) (now : Z) :
  (delaySeconds cfg == delaySeconds cfg')%Q ->
  committedState st = committedState st' ->
  pending st = pending st' ->
  pendingSince st = pendingSince st' ->
  committedState (fst (step cfg st raw now))
  = committedState (fst (step cfg' st' raw now)) /\
  pending (fst (step cfg st raw now))
  = pending (fst (step cfg' st' raw now)) /\
  pendingSince (fst (step cfg st raw now))
  = pendingSince (fst (step cfg' st' raw now)).
Proof.
  intros Hd Hc Hp Hs.
  rewrite !step_committed, !step_pending, !step_pendingSince, Hc, Hp, Hs.
  assert (Hg : geb (secondsBetween now (pendingSince st')) (delaySeconds cfg)
               = geb (secondsBetween now (pendingSince st'))
                   (delaySeconds cfg')).
  { unfold geb. rewrite Hd. reflexivity. }
  rewrite Hg. repeat split.
Qed.

(** X13: the debounce does not depend on the alert: the sound switch, the
    threshold stored in the configuration and [lastSoundTime] have no
    influence on the committed state, the pending state and its timestamp
    after any sequence of classified frames. *)
Theorem debounce_ignores_alert (cfg cfg' : Config)
    (frames : list (bool * Z)) :
  (delaySeconds cfg == delaySeconds cfg')%Q ->
  forall st st',
    committedState st = committedState st' ->
    pending st = pending st' ->
    pendingSince st = pendingSince st' ->
    committedState (stateAfter cfg st frames)
    = committedState (stateAfter cfg' st' frames) /\
    pending (stateAfter cfg st frames) = pending (stateAfter cfg' st' frames) /\
    pendingSince (stateAfter cfg st frames)
    = pendingSince (stateAfter cfg' st' frames).
Proof.
  intro Hd. induction frames as [ | [raw now] rest IH];
    intros st st' Hc Hp Hs.
  - repeat split; assumption.
  - rewrite !stateAfter_cons.
    destruct (debounce_step_independent cfg cfg' st st' raw now Hd Hc Hp Hs)
      as (H1 & H2 & H3).
    apply IH; assumption.
Qed.

(** Sound on and an alert long ago, against sound off and an alert just
    now. *)
Lemma debounce_ignores_alert_witness :
  let frames := [(true, 100000); (true, 103000); (false, 104000)] in
  committedState (stateAfter (mkConfig (5 / 100) 2 true)
                    (mkState false (mkRefs 99000 false 0)) frames)
  = committedState (stateAfter (mkConfig (9 / 100) 2 false)
                      (mkState false (mkRefs 99000 false 99000)) frames).
Proof.
  cbv zeta.
  apply (debounce_ignores_alert (mkConfig (5 / 100) 2 true)
           (mkConfig (9 / 100) 2 false)
           [(true, 100000); (true, 103000); (false, 104000)]
           (Qeq_refl 2)
           (mkState false (mkRefs 99000 false 0))
           (mkState false (mkRefs 99000 false 99000))
           eq_refl eq_refl eq_refl).
Defined.

(** X14: the rate limit.  Over any sequence of frames, from any state, the
    first chime comes at least 60000 ms after [lastSoundTime] and every
    further chime at least 60000 ms after the one before it. *)
Theorem alerts_sixty_seconds_apart (cfg : Config) (st : State)
    (frames : list (bool * Z)) :
  consecutive (fun a b => 60000 <= b - a)
    (lastFiredAt st :: fireTimes cfg st frames) /\
  length (fireTimes cfg st frames) = countFires (firesOf cfg st frames).
Proof.
  revert st. induction frames as [ | [raw now] rest IH]; intro st.
  - split; [ exact I | reflexivity ].
  - rewrite fireTimes_cons, firesOf_cons, countFires_cons.
    pose proof (step_lastFiredAt cfg st raw now) as Hl.
    pose proof (fired_iff cfg st raw now) as Hf.
    destruct (IH (fst (step cfg st raw now))) as [H1 H2].
    destruct (snd (step cfg st raw now)).
    + rewrite Hl in H1. split.
      * split; [ apply Hf; reflexivity | exact H1 ].
      * simpl. rewrite H2. reflexivity.
    + rewrite Hl in H1. split; assumption.
Qed.

(** After an alert inside the window, the window stays quiet. *)
Lemma window_quiet (cfg : Config) (start : Z) (frames : list (bool * Z)) :
  (forall raw t, In (raw, t) frames -> start <= t < start + 60000) ->
  forall st,
    start <= lastFiredAt st ->
    countFires (firesOf cfg st frames) = 0%nat.
Proof.
  induction frames as [ | [raw now] rest IH]; intros Hwin st Hlast.
  - reflexivity.
  - rewrite firesOf_cons, countFires_cons.
    pose proof (Hwin raw now (or_introl eq_refl)) as Hnow.
    pose proof (step_lastFiredAt cfg st raw now) as Hl.
    assert (Hf : snd (step cfg st raw now) = false).
    { rewrite step_fired.
      replace (60000 <=? now - lastFiredAt st) with false
        by (symmetry; apply Z.leb_gt; lia).
      apply andb_false_r. }
    rewrite Hf in *. simpl. apply IH.
    + intros r t Hin. apply (Hwin r t). right. exact Hin.
    + rewrite Hl. exact Hlast.
Qed.

(** X15: frames whose timestamps all lie in one window shorter than 60
    seconds play the chime at most once, whatever the state, the
    classifications and the order of the timestamps. *)
Theorem one_alert_per_window (cfg : Config) (st : State)
    (frames : list (bool * Z)) (start : Z) :
  (forall raw t, In (raw, t) frames -> start <= t < start + 60000) ->
  (countFires (firesOf cfg st frames) <= 1)%nat.
Proof.
  revert st. induction frames as [ | [raw now] rest IH]; intros st Hwin.
  - apply Nat.le_0_l.
  - rewrite firesOf_cons, countFires_cons.
    assert (Hrest : forall r t, In (r, t) rest ->
                      start <= t < start + 60000).
    { intros r t Hin. apply (Hwin r t). right. exact Hin. }
    pose proof (Hwin raw now (or_introl eq_refl)) as Hnow.
    pose proof (step_lastFiredAt cfg st raw now) as Hl.
    destruct (snd (step cfg st raw now)).
    + rewrite (window_quiet cfg start rest Hrest); [ lia | ].
      rewrite Hl. lia.
    + simpl. apply IH. exact Hrest.
Qed.

(** A mouth committed open, five frames within 59 seconds. *)
Lemma one_alert_per_window_witness :
  let frames :=
    [(true, 100000); (true, 120000); (false, 130000); (true, 140000);
     (true, 159000)] in
  (countFires
     (firesOf (mkConfig (5 / 100) 0 true)
        (mkState true (mkRefs 100000 true 0)) frames) <= 1)%nat.
Proof.
  cbv zeta.
  apply (one_alert_per_window _ _ _ 100000).
  intros raw t H. simpl in H.
  repeat (destruct H as [H | H]; [ injection H as _ <-; lia | ]).
  destruct H.
Defined.

(** *** The debounce over a sequence of frames *)

Lemma commitTimes_cons (cfg : Config) (st : State) (raw : bool) (now : Z)
    (rest : list (bool * Z)) :
  commitTimes cfg st ((raw, now) :: rest) =
    if eqb (committedState (fst (step cfg st raw now))) (committedState st)
    then commitTimes cfg (fst (step cfg st raw now)) rest
    else now :: commitTimes cfg (fst (step cfg st raw now)) rest.
Proof. reflexivity. Qed.

Lemma ascending_from_earlier (from from' : Z) (frames : list (bool * Z)) :
  from' <= from -> ascending from frames -> ascending from' frames.
Proof.
  destruct frames as [ | [raw now] rest]; intros Hle H; [ exact I | ].
  destruct H as [H1 H2]. split; [ lia | exact H2 ].
Qed.

(** More time has passed since an earlier moment. *)
Lemma secondsBetween_earlier (d : Q) (now since since' : Z) :
  since' <= since ->
  (d <= secondsBetween now since)%Q ->
  (d <= secondsBetween now since')%Q.
Proof.
  intros Hs Hd. apply Qle_trans with (secondsBetween now since);
    [ exact Hd | ].
  unfold secondsBetween, Qle. simpl. lia.
Qed.

(** With timestamps that never decrease, when nothing is pending or the
    pending timestamp is not before [from], every change of the committed
    state comes [delaySeconds] or more after [from] and after the change
    before it. *)
Lemma commitTimes_spaced_from (cfg : Config) (frames : list (bool * Z)) :
  forall st from,
    ascending from frames ->
    pending st = committedState st \/ from <= pendingSince st ->
    consecutive (fun a b => (delaySeconds cfg <= secondsBetween b a)%Q)
      (from :: commitTimes cfg st frames).
Proof.
  induction frames as [ | [raw now] rest IH]; intros st from Hasc Hst.
  - exact I.
  - destruct Hasc as [Hfrom Hrest].
    rewrite commitTimes_cons.
    pose proof (step_committed cfg st raw now) as Sc.
    pose proof (step_pending cfg st raw now) as Sp.
    pose proof (step_pendingSince cfg st raw now) as Ss.
    destruct (eqb (committedState (fst (step cfg st raw now)))
                (committedState st)) eqn:E.
    + (* no change at this frame *)
      apply IH; [ exact (ascending_from_earlier _ _ _ Hfrom Hrest) | ].
      apply eqb_prop in E.
      destruct (negb (eqb raw (committedState st)) && eqb raw (pending st))
        eqn:Etry.
      * right. rewrite Ss.
        destruct Hst as [Hq | Hsince]; [ | exact Hsince ].
        exfalso. apply andb_true_iff in Etry. destruct Etry as [E1 E2].
        apply eqb_prop in E2. rewrite E2, Hq, eqb_reflx in E1.
        discriminate E1.
      * simpl in Sc.
        destruct (eqb raw (committedState st)) eqn:Eagree.
        -- left. apply eqb_prop in Eagree. rewrite Sp, E. exact Eagree.
        -- right. rewrite Ss. exact Hfrom.
    + (* the committed state changes at this frame *)
      apply eqb_false_iff in E.
      destruct (commit_needs_delay cfg st raw now E) as (Hp & Hraw & Hd).
      split.
      * destruct Hst as [Hq | Hsince]; [ congruence | ].
        exact (secondsBetween_earlier _ _ _ _ Hsince Hd).
      * apply IH; [ exact Hrest | ]. left.
        assert (Etry : negb (eqb raw (committedState st))
                       && eqb raw (pending st) = true).
        { rewrite Hp, eqb_reflx.
          destruct raw, (committedState st); simpl; congruence. }
        rewrite Etry in Sc, Sp.
        destruct (geb (secondsBetween now (pendingSince st))
                    (delaySeconds cfg)); simpl in Sc; [ | congruence ].
        rewrite Sc, Sp. exact Hp.
Qed.

(** X16: the displayed state does not flicker: when the timestamps of the
    frames never decrease, any two successive changes of the committed
    state are [delaySeconds] or more apart, from any starting state. *)
Theorem commits_delay_apart (cfg : Config) (frames : list (bool * Z)) :
  forall st from,
    ascending from frames ->
    consecutive (fun a b => (delaySeconds cfg <= secondsBetween b a)%Q)
      (commitTimes cfg st frames).
Proof.
  induction frames as [ | [raw now] rest IH]; intros st from Hasc.
  - exact I.
  - destruct Hasc as [Hfrom Hrest]. rewrite commitTimes_cons.
    destruct (eqb (committedState (fst (step cfg st raw now)))
                (committedState st)) eqn:E.
    + apply (IH _ now). exact Hrest.
    + apply commitTimes_spaced_from; [ exact Hrest | ]. left.
      apply eqb_false_iff in E.
      destruct (commit_needs_delay cfg st raw now E) as (Hp & Hraw & Hd).
      pose proof (step_committed cfg st raw now) as Sc.
      pose proof (step_pending cfg st raw now) as Sp.
      assert (Etry : negb (eqb raw (committedState st))
                     && eqb raw (pending st) = true).
      { rewrite Hp, eqb_reflx.
        destruct raw, (committedState st); simpl; congruence. }
      rewrite Etry in Sc, Sp.
      destruct (geb (secondsBetween now (pendingSince st))
                  (delaySeconds cfg)); simpl in Sc; [ | congruence ].
      rewrite Sc, Sp. exact Hp.
Qed.

(** Delay 2 s: the mouth opens at 100 s and closes at 103 s; the state
    changes at 102 s and at 105 s. *)
Lemma commits_delay_apart_witness :
  let cfg := mkConfig (5 / 100) 2 true in
  let frames :=
    [(true, 100000); (true, 101000); (true, 102000); (false, 103000);
     (false, 104000); (false, 105000)] in
  commitTimes cfg (initialState 99000) frames = [102000; 105000] /\
  consecutive (fun a b => (delaySeconds cfg <= secondsBetween b a)%Q)
    (commitTimes cfg (initialState 99000) frames).
Proof.
  cbv zeta. split; [ vm_compute; reflexivity | ].
  apply (commits_delay_apart (mkConfig (5 / 100) 2 true) _
           (initialState 99000) 99000).
  simpl. lia.
Defined.

(** X17: after every frame with a face, [pendingState] holds the
    classification of that frame: it is the last raw value, whatever the
    state before and the outcome of the delay test. *)
Theorem pending_is_last_classification (cfg : Config) (st : State)
    (frames : list (bool * Z)) (raw : bool) (now : Z) :
  pending (stateAfter cfg st (frames ++ [(raw, now)])) = raw.
Proof.
  rewrite stateAfter_app, stateAfter_cons.
  unfold stateAfter at 1. simpl run. simpl fst.
  rewrite step_pending.
  destruct (negb (eqb raw (committedState (stateAfter cfg st frames)))
            && eqb raw (pending (stateAfter cfg st frames))) eqn:E;
    [ | reflexivity ].
  apply andb_true_iff in E. destruct E as [_ E].
  apply eqb_prop in E. symmetry. exact E.
Qed.

(** Frames that agree with the committed state keep it. *)
Lemma agreeing_frames_keep (cfg : Config) (raw : bool) (times : list Z) :
  forall st,
    committedState st = raw ->
    committedState (stateAfter cfg st (steady raw times)) = raw.
Proof.
  induction times as [ | u rest IH]; intros st Hc; [ exact Hc | ].
  simpl steady. rewrite stateAfter_cons. apply IH.
  rewrite step_committed, Hc, eqb_reflx. reflexivity.
Qed.

(** In an episode under way, a steady signal is committed once one of its
    frames comes after the delay. *)
Lemma steady_signal_commits (cfg : Config) (raw : bool) (t : Z)
    (times : list Z) :
  forall st,
    raw <> committedState st ->
    pending st = raw ->
    In t times ->
    (delaySeconds cfg <= secondsBetween t (pendingSince st))%Q ->
    committedState (stateAfter cfg st (steady raw times)) = raw.
Proof.
  induction times as [ | u rest IH]; intros st Hraw Hp Hin Hd;
    [ destruct Hin | ].
  simpl steady. rewrite stateAfter_cons.
  pose proof (step_committed cfg st raw u) as Sc.
  pose proof (step_pending cfg st raw u) as Sp.
  pose proof (step_pendingSince cfg st raw u) as Ss.
  assert (Etry : negb (eqb raw (committedState st)) && eqb raw (pending st)
                 = true).
  { rewrite Hp, eqb_reflx.
    destruct raw, (committedState st); simpl; congruence. }
  rewrite Etry in Sc, Sp, Ss.
  destruct (geb (secondsBetween u (pendingSince st)) (delaySeconds cfg))
    eqn:E; simpl in Sc.
  - apply agreeing_frames_keep. exact Sc.
  - apply IH.
    + rewrite Sc. exact Hraw.
    + rewrite Sp. exact Hp.
    + destruct Hin as [<- | Hin]; [ | exact Hin ].
      exfalso. apply geb_true in Hd. congruence.
    + rewrite Ss. exact Hd.
Qed.

(** X18: a signal that is held is committed.  With nothing pending, if the
    raw signal changes to the other value at the frame [opening] and keeps
    it, and one of the later frames comes [delaySeconds] or more after
    [opening], then at the end of the sequence the committed state is the
    new value. *)
Theorem held_signal_is_committed (cfg : Config) (st : State) (raw : bool)
    (opening : Z) (times : list Z) (t : Z) :
  raw <> committedState st ->
  pending st = committedState st ->
  In t times ->
  (delaySeconds cfg <= secondsBetween t opening)%Q ->
  committedState (stateAfter cfg st (steady raw (opening :: times))) = raw.
Proof.
  intros Hraw Hp Hin Hd.
  destruct (opening_frame cfg st raw opening Hraw Hp) as (Oc & Op & Os).
  simpl steady. rewrite stateAfter_cons.
  apply (steady_signal_commits cfg raw t times).
  - rewrite Oc. exact Hraw.
  - exact Op.
  - exact Hin.
  - rewrite Os. exact Hd.
Qed.

(** Delay 2 s: the mouth opens at 100 s and stays open until 104 s. *)
Lemma held_signal_is_committed_witness :
  committedState
    (stateAfter (mkConfig (5 / 100) 2 true) (initialState 99000)
       (steady true [100000; 101000; 102500; 103000; 104000]))
  = true.
Proof.
  apply (held_signal_is_committed (mkConfig (5 / 100) 2 true)
           (initialState 99000) true 100000
           [101000; 102500; 103000; 104000] 102500).
  - simpl. discriminate.
  - reflexivity.
  - right. left. reflexivity.
  - vm_compute. discriminate.
Defined.

End DetectorExtras.
